(** * The retrieval-augmented completions endpoint

    A shallow embedding of [src/pages/api/openai/completions/[project].ts]
    and of the two helpers of [src/lib/openai.edge.ts] it calls, followed by
    the properties of the pipeline: prompt validation, rate limiting,
    moderation, embedding with retry, retrieval, context budgeting and the
    transformation of the upstream event stream.

    Conventions.  A JavaScript string is a [string]: a list of code units
    (restricted to those below 256).  A JavaScript number that the code uses
    as a counter or a token count is a [Z]; a fractional literal is a [Q].
    A value that may be [undefined] is an [option].  Calls to services
    outside the handler are answered by an environment record and written
    to a trace, so that "no call of kind k happened" is a statement about
    that trace. *)

From Stdlib Require Import String Ascii List ZArith QArith Bool Arith Lia.
Import ListNotations.

Local Open Scope string_scope.
Local Open Scope Z_scope.

(** ** JavaScript strings *)

Module Js.

Definition LF : ascii := "010"%char.
Definition DQUOTE : ascii := "034"%char.
Definition BACKSLASH : ascii := "092"%char.

Definition chr (c : ascii) : string := String c EmptyString.

(** White space as [String.prototype.trim] sees it, among the code units
    below 256: TAB, LF, VT, FF, CR, SP and NBSP. *)
Definition isWhiteSpace (c : ascii) : bool :=
  let k := nat_of_ascii c in
  (Nat.leb 9 k && Nat.leb k 13) || Nat.eqb k 32 || Nat.eqb k 160.

Fixpoint trimStart (s : string) : string :=
  match s with
  | EmptyString => EmptyString
  | String c r => if isWhiteSpace c then trimStart r else s
  end.

Fixpoint trimEnd (s : string) : string :=
  match s with
  | EmptyString => EmptyString
  | String c r =>
      match trimEnd r with
      | EmptyString => if isWhiteSpace c then EmptyString else chr c
      | r' => String c r'
      end
  end.

Definition trim (s : string) : string := trimEnd (trimStart s).

(** [s.replaceAll('\n', ' ')] *)
Fixpoint replaceAll_LF_SP (s : string) : string :=
  match s with
  | EmptyString => EmptyString
  | String c r =>
      String (if Ascii.eqb c LF then " "%char else c) (replaceAll_LF_SP r)
  end.

(** [s.substring(0, n)] *)
Definition substring0 (n : nat) (s : string) : string := substring 0 n s.

(** [s.match(/\n/)] finds something: [s] holds a line feed somewhere. *)
Fixpoint hasLF (s : string) : bool :=
  match s with
  | EmptyString => false
  | String c r => Ascii.eqb c LF || hasLF r
  end.

(** [arr.includes(x)] on an array of strings. *)
Definition includes (arr : list string) (x : string) : bool :=
  existsb (String.eqb x) arr.

(** The part of [s] after its last ['/']:
    [s.split('/').slice(-1)[0]]. *)
Fixpoint lastComponent_from (acc s : string) : string :=
  match s with
  | EmptyString => acc
  | String c r =>
      if Ascii.eqb c "/"%char then lastComponent_from EmptyString r
      else lastComponent_from (acc ++ chr c) r
  end.

Definition lastComponent (s : string) : string :=
  lastComponent_from EmptyString s.

(** [JSON.stringify] on an array of strings. *)
Definition hexDigit (k : nat) : ascii :=
  ascii_of_nat (if Nat.ltb k 10 then 48 + k else 87 + k).

Definition escapeChar (c : ascii) : string :=
  let k := nat_of_ascii c in
  if Ascii.eqb c DQUOTE then String BACKSLASH (chr DQUOTE)
  else if Ascii.eqb c BACKSLASH then String BACKSLASH (chr BACKSLASH)
  else if Nat.eqb k 8 then String BACKSLASH "b"
  else if Nat.eqb k 9 then String BACKSLASH "t"
  else if Nat.eqb k 10 then String BACKSLASH "n"
  else if Nat.eqb k 12 then String BACKSLASH "f"
  else if Nat.eqb k 13 then String BACKSLASH "r"
  else if Nat.ltb k 32 then
    String BACKSLASH
      ("u00" ++ chr (hexDigit (Nat.div k 16)) ++ chr (hexDigit (Nat.modulo k 16)))
  else chr c.

Fixpoint escape (s : string) : string :=
  match s with
  | EmptyString => EmptyString
  | String c r => escapeChar c ++ escape r
  end.

Definition quote (s : string) : string :=
  String DQUOTE (escape s ++ chr DQUOTE).

Fixpoint joinComma (l : list string) : string :=
  match l with
  | [] => EmptyString
  | [x] => x
  | x :: r => x ++ "," ++ joinComma r
  end.

Definition JSON_stringify (arr : list string) : string :=
  "[" ++ joinComma (map quote arr) ++ "]".

End Js.

(** ** Context budgeting (lines 212-226 of the handler) *)

Definition CONTEXT_TOKENS_CUTOFF : Z := 800.

Record FileSection := {
  path : string;
  content : string;
  token_count : Z;
  similarity : Q
}.

Record Budget := {
  numTokens : Z;
  contextText : string;
  references : list string
}.

Definition SECTION_SEPARATOR : string :=
  Js.chr Js.LF ++ "---" ++ Js.chr Js.LF.

Definition Budget_init : Budget :=
  {| numTokens := 0; contextText := ""; references := [] |}.

(** [if (!references.includes(p)) { references.push(p) }] *)
Definition pushNew (references : list string) (p : string) : list string :=
  if negb (Js.includes references p) then references ++ [p] else references.

(** The body of the [for ... of] loop, with its [break]. *)
Fixpoint budget_loop (fileSections : list FileSection) (b : Budget) : Budget :=
  match fileSections with
  | [] => b
  | section :: rest =>
      let numTokens' := numTokens b + token_count section in
      if numTokens' >=? CONTEXT_TOKENS_CUTOFF then
        {| numTokens := numTokens';
           contextText := contextText b;
           references := references b |}
      else
        budget_loop rest
          {| numTokens := numTokens';
             contextText :=
               contextText b ++ Js.trim (content section) ++ SECTION_SEPARATOR;
             references := pushNew (references b) (path section) |}
  end.

Definition assembleContext (fileSections : list FileSection) : Budget :=
  budget_loop fileSections Budget_init.

(** ** Control flow: state, early [return] and [throw] *)

(** What running a block of statements ends in: it falls through with a
    value, leaves the enclosing function by [return], or throws. *)
Inductive Exit (R A : Type) : Type :=
| Next (a : A)
| Return (r : R)
| Throw (e : string).

Arguments Next {R A} a.
Arguments Return {R A} r.
Arguments Throw {R A} e.

(** A function that may throw, outside the monad. *)
Inductive Thrown (A : Type) : Type :=
| Ok (a : A)
| Raise (e : string).

Arguments Ok {A} a.
Arguments Raise {A} e.

Definition M (S R A : Type) : Type := S -> Exit R A * S.

Definition ret {S R A} (a : A) : M S R A := fun s => (Next a, s).

Definition bind {S R A B} (m : M S R A) (f : A -> M S R B) : M S R B :=
  fun s =>
    match m s with
    | (Next a, s') => f a s'
    | (Return r, s') => (Return r, s')
    | (Throw e, s') => (Throw e, s')
    end.

Definition return_ {S R A} (r : R) : M S R A := fun s => (Return r, s).

Definition throw {S R A} (e : string) : M S R A := fun s => (Throw e, s).

(** [try { m } catch (e) { h e }] *)
Definition try_catch {S R A} (m : M S R A) (h : string -> M S R A) : M S R A :=
  fun s =>
    match m s with
    | (Throw e, s') => h e s'
    | other => other
    end.

Definition get {S R} : M S R S := fun s => (Next s, s).

Definition modify {S R} (f : S -> S) : M S R unit := fun s => (Next tt, f s).

(** The value of a call that may throw. *)
Definition await {S R A} (t : Thrown A) : M S R A :=
  match t with
  | Ok a => ret a
  | Raise e => throw e
  end.

Declare Scope js_scope.
Delimit Scope js_scope with js.

Notation "x <- m ;; k" := (bind m (fun x => k))
  (at level 61, m at next level, right associativity) : js_scope.
Notation "m ;; k" := (bind m (fun _ => k))
  (at level 61, right associativity) : js_scope.

(** ** Models and the upstream chunk shape *)

Inductive ModelType := chat_completions | completions.

Record OpenAIModelIdWithType := {
  type : ModelType;
  value : string
}.

(** A field of the upstream JSON that the code reads as text: absent,
    [null], or a string. *)
Inductive JsText :=
| Undefined
| Null
| Str (s : string).

Record Delta := { delta_content : JsText }.

Record Choice := {
  delta : option Delta;
  text : JsText
}.

(** The parsed [data] of one upstream event, as far as [getChunkText] looks
    into it. *)
Record CompletionChunk := { choices : option (list Choice) }.

Definition TYPE_ERROR : string := "TypeError".
Definition SYNTAX_ERROR : string := "SyntaxError".

(** [response.choices[0]], then a property of it: reading a property of
    [undefined] throws. *)
Definition firstChoice (response : CompletionChunk) : Thrown Choice :=
  match choices response with
  | None => Raise TYPE_ERROR
  | Some cs =>
      match nth_error cs 0 with
      | None => Raise TYPE_ERROR
      | Some c => Ok c
      end
  end.

Definition getChunkText (response : CompletionChunk)
    (model : OpenAIModelIdWithType) : Thrown JsText :=
  match type model with
  | chat_completions =>
      match firstChoice response with
      | Raise e => Raise e
      | Ok c =>
          match delta c with
          | None => Raise TYPE_ERROR
          | Some d => Ok (delta_content d)
          end
      end
  | completions =>
      match firstChoice response with
      | Raise e => Raise e
      | Ok c => Ok (text c)
      end
  end.

(** [allText += text] and [encoder.encode(text)] turn the value into text
    differently when it is [undefined]. *)
Definition toString (t : JsText) : string :=
  match t with
  | Undefined => "undefined"
  | Null => "null"
  | Str s => s
  end.

Definition encode (t : JsText) : string :=
  match t with
  | Undefined => ""
  | Null => "null"
  | Str s => s
  end.

(** [(text?.match(/\n/) || []).length] is not zero. *)
Definition matchesLF (t : JsText) : bool :=
  match t with
  | Str s => Js.hasLF s
  | _ => false
  end.

(** ** The output stream and its controller *)

(** What was enqueued: the bytes, and which of the two [enqueue] statements
    of [onParse] wrote them.  [enqueued] is the log of the chunks handed to
    the controller, in order. *)
Inductive Chunk :=
| ReferencesFrame (bytes : string)
| ContentFrame (bytes : string).

Inductive StreamStatus := Readable | Closed | Errored.

Record Controller := {
  enqueued : list Chunk;
  status : StreamStatus
}.

Definition Controller_init : Controller :=
  {| enqueued := []; status := Readable |}.

Definition isReadable (c : Controller) : bool :=
  match status c with Readable => true | _ => false end.

(** [controller.enqueue] and [controller.close] throw unless the stream is
    readable; [controller.error] does nothing then.  An error makes the
    real controller drop the chunks that no reader has taken yet;
    [enqueued] is not that queue but the log of the chunks handed over, so
    it is kept. *)
Definition controller_enqueue (ch : Chunk) (c : Controller) : Thrown Controller :=
  if isReadable c
  then Ok {| enqueued := enqueued c ++ [ch]; status := Readable |}
  else Raise TYPE_ERROR.

Definition controller_error (c : Controller) : Controller :=
  if isReadable c
  then {| enqueued := enqueued c; status := Errored |}
  else c.

Definition controller_close (c : Controller) : Thrown Controller :=
  if isReadable c
  then Ok {| enqueued := enqueued c; status := Closed |}
  else Raise TYPE_ERROR.

(** ** The stream transformer (lines 268-323) *)

(** One event handed to [onParse] by the event-source parser.  [json] is
    what [JSON.parse(data)] gives for this event's [data]. *)
Inductive ParsedEvent :=
| ReconnectInterval (value : Z)
| Event (data : string) (json : Thrown CompletionChunk).

Definition DONE : string := "[DONE]".

(** The variables [onParse] closes over. *)
Record Transformer := {
  counter : Z;
  allText : string;
  didSendHeader : bool;
  controller : Controller
}.

Definition Transformer_init (fullPrompt : string) : Transformer :=
  {| counter := 0;
     allText := fullPrompt;
     didSendHeader := false;
     controller := Controller_init |}.

Definition TM := M Transformer unit.

Definition enqueue (ch : Chunk) : TM unit :=
  fun t =>
    match controller_enqueue ch (controller t) with
    | Ok c =>
        (Next tt,
         {| counter := counter t; allText := allText t;
            didSendHeader := didSendHeader t; controller := c |})
    | Raise e => (Throw e, t)
    end.

Definition set_didSendHeader (b : bool) : TM unit :=
  modify (fun t =>
    {| counter := counter t; allText := allText t;
       didSendHeader := b; controller := controller t |}).

Definition append_allText (s : string) : TM unit :=
  modify (fun t =>
    {| counter := counter t; allText := allText t ++ s;
       didSendHeader := didSendHeader t; controller := controller t |}).

Definition incr_counter : TM unit :=
  modify (fun t =>
    {| counter := counter t + 1; allText := allText t;
       didSendHeader := didSendHeader t; controller := controller t |}).

Definition error_stream (t : Transformer) : Transformer :=
  {| counter := counter t; allText := allText t;
     didSendHeader := didSendHeader t;
     controller := controller_error (controller t) |}.

Section StreamTransformer.

Variable STREAM_SEPARATOR : string.
Variable references : list string.
Variable model : OpenAIModelIdWithType.

Definition referencesFrame : Chunk :=
  ReferencesFrame (Js.JSON_stringify references ++ STREAM_SEPARATOR).

Local Open Scope js_scope.

(** The [try] block of [onParse]. *)
Definition onParse_try (json : Thrown CompletionChunk) : TM unit :=
  t <- get ;;
  (if negb (didSendHeader t)
   then enqueue referencesFrame ;; set_didSendHeader true
   else ret tt) ;;
  json <- await json ;;
  text <- await (getChunkText json model) ;;
  append_allText (toString text) ;;
  t <- get ;;
  if (counter t <? 2) && matchesLF text
  then return_ tt
  else enqueue (ContentFrame (encode text)) ;; incr_counter.

Definition onParse (event : ParsedEvent) (t : Transformer) : Transformer :=
  match event with
  | ReconnectInterval _ => t
  | Event data json =>
      if String.eqb data DONE then t
      else
        match onParse_try json t with
        | (Throw _, t') => error_stream t'
        | (_, t') => t'
        end
  end.

(** [parser.feed] hands the events to [onParse] one after the other. *)
Definition feed (events : list ParsedEvent) (t : Transformer) : Transformer :=
  fold_left (fun t event => onParse event t) events t.

(** [start]: feed everything the upstream sends, then [controller.close()].
    When [close] throws, the promise of [start] is rejected, which errors
    a stream that is still readable; the stream is not, or [close] would
    not have thrown.  The token count taken in between is not used (the
    call that would record it is commented out) and is left out. *)
Definition start (events : list ParsedEvent) (t : Transformer) : Transformer :=
  let t' := feed events t in
  match controller_close (controller t') with
  | Ok c =>
      {| counter := counter t'; allText := allText t';
         didSendHeader := didSendHeader t'; controller := c |}
  | Raise _ => t'
  end.

End StreamTransformer.

(** What the client is sent: the enqueued chunks, and the content chunks
    among them. *)
Definition isReferencesFrame (ch : Chunk) : bool :=
  match ch with ReferencesFrame _ => true | ContentFrame _ => false end.

Definition contentOf (out : list Chunk) : list string :=
  flat_map (fun ch =>
    match ch with ContentFrame b => [b] | ReferencesFrame _ => [] end) out.

Definition countReferencesFrames (out : list Chunk) : nat :=
  List.length (filter isReferencesFrame out).

(** ** Requests, responses and the services the handler calls *)

Record Params := {
  params_model : string;
  params_prompt : string;
  params_iDontKnowMessage : option string
}.

Record NextRequest := {
  method : string;
  pathname : string;
  searchParams : list (string * string);
  json_body : Thrown Params
}.

(** [searchParams.get(name)] *)
Fixpoint searchParams_get (sp : list (string * string)) (name : string)
    : option string :=
  match sp with
  | [] => None
  | (k, v) :: rest => if String.eqb k name then Some v else searchParams_get rest name
  end.

Inductive Body :=
| Text (s : string)
| Stream (t : Transformer).

Record Response := {
  resp_status : Z;
  resp_headers : list (string * string);
  resp_body : Body
}.

(** [new Response(body, { status })] and [new Response(stream)]: the handler
    passes no headers anywhere. *)
Definition new_Response (body : string) (st : Z) : Response :=
  {| resp_status := st; resp_headers := []; resp_body := Text body |}.

Definition new_Response_stream (t : Transformer) : Response :=
  {| resp_status := 200; resp_headers := []; resp_body := Stream t |}.

Record Message := { role : string; message_content : string }.

Record Payload := {
  payload_model : string;
  temperature : Q;
  top_p : Z;
  frequency_penalty : Z;
  presence_penalty : Z;
  max_tokens : Z;
  stream : bool;
  n : Z;
  messages : option (list Message);
  payload_prompt : option string
}.

Definition getPayload (prompt : string) (model : OpenAIModelIdWithType) : Payload :=
  match type model with
  | chat_completions =>
      {| payload_model := value model; temperature := 1 # 10; top_p := 1;
         frequency_penalty := 0; presence_penalty := 0; max_tokens := 500;
         stream := true; n := 1;
         messages := Some [{| role := "user"; message_content := prompt |}];
         payload_prompt := None |}
  | completions =>
      {| payload_model := value model; temperature := 1 # 10; top_p := 1;
         frequency_penalty := 0; presence_penalty := 0; max_tokens := 500;
         stream := true; n := 1;
         messages := None;
         payload_prompt := Some prompt |}
  end.

Record MatchFileSectionsArgs := {
  project_id : string;
  embedding : list Q;
  match_threshold : Q;
  match_count : Z;
  min_content_length : Z
}.

Record RpcResult := {
  error : option string;
  data : option (list FileSection)
}.

Record RatelimitResponse := {
  success : bool;
  limit : Z;
  remaining : Z
}.

Record RateLimitCheck := {
  result : RatelimitResponse;
  hours : Z;
  minutes : Z
}.

Record ModerationResult := { flagged : bool }.

Record CreateModerationResponse := {
  results : option (list ModerationResult)
}.

Record EmbeddingData := { data_embedding : option (list Q) }.

Record CreateEmbeddingResponse := {
  embedding_data : option (list EmbeddingData)
}.

(** Every call that leaves the handler, in the order it is made. *)
Inductive Call :=
| RateLimitCall (projectId : string)
| GetOpenAIKeyCall (projectId : string)
| ModerationCall (authorization input : string)
| EmbeddingCall (authorization embedding_model input : string)
| BackoffDelay (ms : Z)
| RetrievalCall (args : MatchFileSectionsArgs)
| CompletionCall (authorization : string) (payload : Payload).

Definition Trace := list Call.

(** What the handler imports and does not define: the constants of
    [@/lib/constants], [stringToModel], the two [common-tags] templates, the
    environment variable, and the services.  A service answers knowing the
    calls made so far, so that the same call may be answered differently
    when it is repeated. *)
Record Env := {
  I_DONT_KNOW : string;
  MAX_PROMPT_LENGTH : nat;
  STREAM_SEPARATOR : string;
  stringToModel : string -> OpenAIModelIdWithType;
  oneLine : string -> string;
  stripIndent : string -> string;
  OPENAI_API_KEY : option string;
  rate_limits : Trace -> string -> Thrown RateLimitCheck;
  openAIKey_of : Trace -> string -> Thrown (option string);
  fetch_moderations : Trace -> string -> string -> Thrown (option CreateModerationResponse);
  fetch_embeddings : Trace -> string -> string -> string -> Thrown (option CreateEmbeddingResponse);
  rpc_match_file_sections : Trace -> MatchFileSectionsArgs -> RpcResult;
  fetch_completions : Trace -> string -> Payload -> Thrown (list ParsedEvent)
}.

Definition HM := M Trace Response.

(** Make a call: write it to the trace and take the service's answer. *)
Definition call {A} (c : Call) (answer : Trace -> Thrown A) : HM A :=
  fun tr =>
    match answer tr with
    | Ok a => (Next a, (tr ++ [c])%list)
    | Raise e => (Throw e, (tr ++ [c])%list)
    end.

(** [a || b] on strings that may be undefined, and how a template prints
    the outcome. *)
Definition orElse (a b : option string) : option string :=
  match a with
  | Some s => if String.eqb s "" then b else Some s
  | None => b
  end.

Definition template (a : option string) : string :=
  match a with
  | Some s => s
  | None => "undefined"
  end.

(** ** [src/lib/openai.edge.ts] *)

Section OpenAIEdge.

Variable E : Env.

Definition createModeration (input : string) (openAIKey : option string)
    : HM (option CreateModerationResponse) :=
  let authorization :=
    "Bearer " ++ template (orElse openAIKey (OPENAI_API_KEY E)) in
  call (ModerationCall authorization input)
       (fun tr => fetch_moderations E tr authorization input).

Definition createEmbedding (input : string) (openAIKey : option string)
    : HM (option CreateEmbeddingResponse) :=
  let authorization :=
    "Bearer " ++ template (orElse openAIKey (OPENAI_API_KEY E)) in
  let input' := Js.replaceAll_LF_SP (Js.trim input) in
  call (EmbeddingCall authorization "text-embedding-ada-002" input')
       (fun tr =>
          fetch_embeddings E tr authorization "text-embedding-ada-002" input').

End OpenAIEdge.

(** ** [backOff] of the exponential-backoff package *)

Record BackoffOptions := {
  startingDelay : Z;
  numOfAttempts : nat
}.

(** The options the handler leaves at their defaults. *)
Definition timeMultiple : Z := 2.
Definition delayFirstAttempt : bool := false.

(** Modelled from the spec: the delay of [backOff], which is imported from
    a package that is not among the sources.  "Initial delay [...],
    multiplicative growth between attempts (doubling)": the first attempt
    is made at once, the second after [startingDelay], and each later one
    after twice the delay before. *)
Definition delayBefore (o : BackoffOptions) (attemptNumber : nat) : HM unit :=
  match attemptNumber with
  | O => if delayFirstAttempt
         then call (BackoffDelay (startingDelay o)) (fun _ => Ok tt)
         else ret tt
  | S k => call (BackoffDelay (startingDelay o * timeMultiple ^ Z.of_nat k))
                (fun _ => Ok tt)
  end.

(** Modelled from the spec: [backOff], imported from the exponential-backoff
    package, which is not among the sources.  "Bounded exponential backoff:
    [...] up to [numOfAttempts] attempts total": the request is tried again
    after every failure, whatever the error, until it succeeds or the
    attempts are used up; then the error of the last attempt is thrown. *)
Fixpoint backOff_from {A} (remaining attemptNumber : nat)
    (request : HM A) (o : BackoffOptions) : HM A :=
  match remaining with
  | O => throw "Error: Something went wrong."
  | S k =>
      bind (delayBefore o attemptNumber) (fun _ =>
      try_catch request (fun e =>
        match k with
        | O => throw e
        | S _ => backOff_from k (S attemptNumber) request o
        end))
  end.

(** Modelled from the spec: the entry point of [backOff]; at least one
    attempt is made. *)
Definition backOff {A} (request : HM A) (o : BackoffOptions) : HM A :=
  backOff_from (Nat.max 1 (numOfAttempts o)) 0 request o.

(** ** The handler (lines 71-326) *)

Section Handler.

Variable E : Env.

Local Open Scope js_scope.

(** [`${error}`] for a caught error, and the two messages built from it. *)
Definition embeddingErrorMessage (prompt : string) (e : option string) : string :=
  match e with
  | Some e => "Error creating embedding for prompt '" ++ prompt ++ "': " ++ e
  | None => "Error creating embedding for prompt '" ++ prompt ++ "'"
  end.

(** Lines 88-97: the project is the last component of the path, or the
    [project] query parameter when that component is [completions]. *)
Definition projectIdParam_of (req : NextRequest) : option string :=
  let lastPathComponent := Js.lastComponent (pathname req) in
  if String.eqb lastPathComponent "completions"
  then searchParams_get (searchParams req) "project"
  else Some (Js.lastComponent (pathname req)).

(** [!x] for a string that may be [null]. *)
Definition falsy (x : option string) : bool :=
  match x with
  | None => true
  | Some s => String.eqb s ""
  end.

Definition sanitize (prompt : string) : string :=
  Js.replaceAll_LF_SP (Js.trim prompt).

(** [moderationResponse?.results?.[0]?.flagged] *)
Definition isFlagged (r : option CreateModerationResponse) : bool :=
  match r with
  | None => false
  | Some r =>
      match results r with
      | None => false
      | Some rs =>
          match nth_error rs 0 with
          | None => false
          | Some m => flagged m
          end
      end
  end.

(** [embeddingResult?.data?.[0]?.embedding] *)
Definition promptEmbedding_of (r : option CreateEmbeddingResponse)
    : option (list Q) :=
  match r with
  | None => None
  | Some r =>
      match embedding_data r with
      | None => None
      | Some ds =>
          match nth_error ds 0 with
          | None => None
          | Some d => data_embedding d
          end
      end
  end.

(** Lines 228-239. *)
Definition fullPrompt_of (iDontKnowMessage contextText sanitizedQuery : string)
    : string :=
  let nl := Js.chr Js.LF in
  let q := Js.chr Js.DQUOTE in
  stripIndent E
    (nl ++ "  " ++
     oneLine E
       ("You are a very enthusiastic company representative who loves to help people! Given the following sections from the documentation, answer the question using only that information, outputted in Markdown format. If you are unsure and the answer is not explicitly written in the documentation, say "
        ++ q
        ++ template (orElse (Some iDontKnowMessage) (Some (I_DONT_KNOW E)))
        ++ q)
     ++ nl ++ nl ++ "Context sections:" ++ nl ++ "---" ++ nl
     ++ contextText ++ nl ++ nl
     ++ "Question: " ++ q ++ sanitizedQuery ++ q ++ nl ++ nl
     ++ "Answer (including related code snippets if available):").

Definition embeddingBackoff : BackoffOptions :=
  {| startingDelay := 10000; numOfAttempts := 10 |}.

Definition matchArgs (projectId : string) (promptEmbedding : list Q)
    : MatchFileSectionsArgs :=
  {| project_id := projectId;
     embedding := promptEmbedding;
     match_threshold := 78 # 100;
     match_count := 10;
     min_content_length := 50 |}.

Definition handler_body (req : NextRequest) : HM unit :=
  (* Preflight check *)
  (if String.eqb (method req) "OPTIONS"
   then return_ (new_Response "ok" 200) else ret tt) ;;
  (if negb (String.eqb (method req) "POST")
   then return_ (new_Response ("Method " ++ method req ++ " Not Allowed") 405)
   else ret tt) ;;
  params <- await (json_body req) ;;
  let model := stringToModel E (params_model params) in
  let prompt := Js.substring0 (MAX_PROMPT_LENGTH E) (params_prompt params) in
  let iDontKnowMessage :=
    template (orElse (params_iDontKnowMessage params) (Some (I_DONT_KNOW E))) in
  let projectIdParam := projectIdParam_of req in
  (if falsy projectIdParam
   then return_ (new_Response "No project found" 400) else ret tt) ;;
  (if String.eqb prompt ""
   then return_ (new_Response "No prompt provided" 400) else ret tt) ;;
  let projectId := template projectIdParam in
  (* Apply rate limits, in additional to middleware rate limits. *)
  rateLimitResult <- call (RateLimitCall projectId)
                          (fun tr => rate_limits E tr projectId) ;;
  (if negb (success (result rateLimitResult))
   then return_ (new_Response "Too many requests" 429) else ret tt) ;;
  openAIKey <- call (GetOpenAIKeyCall projectId)
                    (fun tr => openAIKey_of E tr projectId) ;;
  let sanitizedQuery := sanitize prompt in
  (* Moderate the content *)
  moderationResponse <- createModeration E sanitizedQuery openAIKey ;;
  (if isFlagged moderationResponse
   then throw "Error: Flagged content" else ret tt) ;;
  (* Retry with exponential backoff in case of error. *)
  embeddingResult <-
    try_catch
      (backOff (createEmbedding E sanitizedQuery openAIKey) embeddingBackoff)
      (fun e => return_ (new_Response (embeddingErrorMessage prompt (Some e)) 400)) ;;
  match promptEmbedding_of embeddingResult with
  | None => return_ (new_Response (embeddingErrorMessage prompt None) 400)
  | Some promptEmbedding =>
      r <- call (RetrievalCall (matchArgs projectId promptEmbedding))
                (fun tr => Ok (rpc_match_file_sections E tr
                                 (matchArgs projectId promptEmbedding))) ;;
      match error r with
      | Some message =>
          return_ (new_Response ("Error loading embeddings: " ++ message) 400)
      | None =>
          match data r with
          | None | Some [] =>
              return_ (new_Response "No relevant sections found" 400)
          | Some fileSections =>
              let b := assembleContext fileSections in
              let fullPrompt :=
                fullPrompt_of iDontKnowMessage (contextText b) sanitizedQuery in
              let payload := getPayload fullPrompt model in
              let authorization :=
                "Bearer " ++
                match orElse openAIKey (OPENAI_API_KEY E) with
                | Some k => k
                | None => ""
                end in
              events <- call (CompletionCall authorization payload)
                             (fun tr => fetch_completions E tr authorization payload) ;;
              return_
                (new_Response_stream
                   (start (STREAM_SEPARATOR E) (references b) model events
                          (Transformer_init fullPrompt)))
          end
      end
  end.

(** The handler, started with no call made yet. *)
Definition handler (req : NextRequest) : Exit Response unit * Trace :=
  handler_body req [].

End Handler.

(** ** Reading a trace *)

Definition isModerationCall (c : Call) : bool :=
  match c with ModerationCall _ _ => true | _ => false end.

Definition isEmbeddingCall (c : Call) : bool :=
  match c with EmbeddingCall _ _ _ => true | _ => false end.

Definition isRetrievalCall (c : Call) : bool :=
  match c with RetrievalCall _ => true | _ => false end.

Definition isCompletionCall (c : Call) : bool :=
  match c with CompletionCall _ _ => true | _ => false end.

Definition count (p : Call -> bool) (tr : Trace) : nat :=
  List.length (filter p tr).

Definition delaysOf (tr : Trace) : list Z :=
  flat_map (fun c => match c with BackoffDelay ms => [ms] | _ => [] end) tr.

(** The response opens a stream. *)
Definition opensStream (x : Exit Response unit) : bool :=
  match x with
  | Return r => match resp_body r with Stream _ => true | Text _ => false end
  | _ => false
  end.

(** ** The budget, said without the loop *)

(** The token total of a list of sections. *)
Definition tokenTotal (l : list FileSection) : Z :=
  fold_right (fun s acc => token_count s + acc) 0 l.

(** What one included section adds to the context. *)
Definition sectionText (s : FileSection) : string :=
  Js.trim (content s) ++ SECTION_SEPARATOR.

Definition concatText (l : list FileSection) : string :=
  fold_right (fun s acc => sectionText s ++ acc) "" l.

(** The distinct entries of a list, each at its first occurrence. *)
Fixpoint firstSeen (l : list string) : list string :=
  match l with
  | [] => []
  | p :: r => p :: remove string_dec p (firstSeen r)
  end.

(** [k] sections fit: every running total up to the [k]-th stays below the
    cutoff, and the next one, if there is one, does not. *)
Definition fits (offset : Z) (secs : list FileSection) (k : nat) : Prop :=
  (k <= List.length secs)%nat /\
  (forall j, (1 <= j <= k)%nat ->
     offset + tokenTotal (firstn j secs) < CONTEXT_TOKENS_CUTOFF) /\
  ((k < List.length secs)%nat ->
     offset + tokenTotal (firstn (S k) secs) >= CONTEXT_TOKENS_CUTOFF).

Definition mkSection (p c : string) (tokens : Z) (sim : Q) : FileSection :=
  {| path := p; content := c; token_count := tokens; similarity := sim |}.

(** ** Events and sample inputs *)

(** An event that [onParse] acts on: of type [event], and not the
    sentinel. *)
Definition isDataEvent (event : ParsedEvent) : bool :=
  match event with
  | ReconnectInterval _ => false
  | Event data _ => negb (String.eqb data DONE)
  end.

(** The sentinel, as the parser hands it over: [JSON.parse] would throw on
    it, had it been asked. *)
Definition doneEvent : ParsedEvent := Event DONE (Raise SYNTAX_ERROR).

(** A completion-style event carrying the text [s]: its [data], and the
    same with its parsed form. *)
Definition chunkJson (s : string) : string :=
  "{" ++ Js.quote "choices" ++ ":[{" ++ Js.quote "text" ++ ":" ++ Js.quote s ++ "}]}".

Definition textEvent (s : string) : ParsedEvent :=
  Event (chunkJson s) (Ok {| choices := Some [{| delta := None; text := Str s |}] |}).

Definition NL : string := Js.chr Js.LF.

Definition sampleModel : OpenAIModelIdWithType :=
  {| type := completions; value := "text-davinci-003" |}.

(** The output of the transformer for a list of upstream events. *)
Definition outputOf (separator : string) (refs : list string)
    (model : OpenAIModelIdWithType) (events : list ParsedEvent)
    (fullPrompt : string) : list Chunk :=
  enqueued (controller (start separator refs model events
                          (Transformer_init fullPrompt))).

(** Either nothing was sent yet and the stream is readable, or the
    references frame was sent first and only content after it. *)
Definition HeaderFirst (frame : Chunk) (t : Transformer) : Prop :=
  (didSendHeader t = false /\ enqueued (controller t) = [] /\
   status (controller t) = Readable)
  \/
  (didSendHeader t = true /\
   exists cs, enqueued (controller t) = frame :: map ContentFrame cs).

(** ** The calls of a retried request, said without the loop *)

(** The delay before an attempt, numbered from 0: none before the first. *)
Definition delayOf (o : BackoffOptions) (attemptNumber : nat) : list Z :=
  match attemptNumber with
  | O => []
  | S k => [startingDelay o * 2 ^ Z.of_nat k]
  end.

(** The delays of [k] attempts in a row, the first of them being attempt
    [attemptNumber]. *)
Fixpoint schedule (o : BackoffOptions) (attemptNumber k : nat) : list Z :=
  match k with
  | O => []
  | S k' => (delayOf o attemptNumber ++ schedule o (S attemptNumber) k')%list
  end.

(** The calls of those [k] attempts, each making the call [c]. *)
Fixpoint attemptCalls (o : BackoffOptions) (c : Call) (attemptNumber k : nat)
    : Trace :=
  match k with
  | O => []
  | S k' =>
      (map BackoffDelay (delayOf o attemptNumber) ++ [c] ++
       attemptCalls o c (S attemptNumber) k')%list
  end.

(** The call [createEmbedding] makes. *)
Definition embeddingCallOf (E : Env) (input : string) (openAIKey : option string)
    : Call :=
  EmbeddingCall ("Bearer " ++ template (orElse openAIKey (OPENAI_API_KEY E)))
                "text-embedding-ada-002"
                (Js.replaceAll_LF_SP (Js.trim input)).

(** ** Sample requests and services *)

Definition allowedCheck : RateLimitCheck :=
  {| result := {| success := true; limit := 100; remaining := 99 |};
     hours := 0; minutes := 0 |}.

Definition deniedCheck (h m : Z) : RateLimitCheck :=
  {| result := {| success := false; limit := 100; remaining := 0 |};
     hours := h; minutes := m |}.

Definition sampleEnv (rl : RateLimitCheck)
    (moderation : option CreateModerationResponse)
    (embeddings : Trace -> Thrown (option CreateEmbeddingResponse))
    (retrieval : RpcResult) (events : list ParsedEvent) : Env :=
  {| I_DONT_KNOW := "Sorry, I am not sure how to answer that.";
     MAX_PROMPT_LENGTH := 200;
     STREAM_SEPARATOR := "___START_RESPONSE_STREAM___";
     stringToModel := fun _ => sampleModel;
     oneLine := fun s => s;
     stripIndent := fun s => s;
     OPENAI_API_KEY := Some "sk-test";
     rate_limits := fun _ _ => Ok rl;
     openAIKey_of := fun _ _ => Ok None;
     fetch_moderations := fun _ _ _ => Ok moderation;
     fetch_embeddings := fun tr _ _ _ => embeddings tr;
     rpc_match_file_sections := fun _ _ => retrieval;
     fetch_completions := fun _ _ _ => Ok events |}.

Definition sampleParams (prompt : string) : Params :=
  {| params_model := "text-davinci-003";
     params_prompt := prompt;
     params_iDontKnowMessage := None |}.

Definition sampleRequest (prompt : string) : NextRequest :=
  {| method := "POST";
     pathname := "/api/openai/completions/project-1";
     searchParams := [];
     json_body := Ok (sampleParams prompt) |}.

Definition notFlagged : option CreateModerationResponse :=
  Some {| results := Some [{| flagged := false |}] |}.

Definition isFlaggedResponse : option CreateModerationResponse :=
  Some {| results := Some [{| flagged := true |}] |}.

Definition sampleEmbedding : Thrown (option CreateEmbeddingResponse) :=
  Ok (Some {| embedding_data :=
                Some [{| data_embedding := Some [1 # 2; 1 # 4] |}] |}).

Definition sampleSections : list FileSection :=
  [mkSection "docs/refunds.md" "Refunds within 30 days." 10 (9 # 10)].

Definition sampleRetrieval : RpcResult :=
  {| error := None; data := Some sampleSections |}.


Definition sampleEvents : list ParsedEvent :=
  [textEvent "Ref"; textEvent "unds"; textEvent " apply."; doneEvent].

(** Every character of [s] is white space. *)
Fixpoint allWhiteSpace (s : string) : bool :=
  match s with
  | EmptyString => true
  | String c r => Js.isWhiteSpace c && allWhiteSpace r
  end.

(** The same services, with every answer of the rate limiter passed
    through [f]. *)
Definition withRateLimit (f : RateLimitCheck -> RateLimitCheck) (E : Env) : Env :=
  {| I_DONT_KNOW := I_DONT_KNOW E;
     MAX_PROMPT_LENGTH := MAX_PROMPT_LENGTH E;
     STREAM_SEPARATOR := STREAM_SEPARATOR E;
     stringToModel := stringToModel E;
     oneLine := oneLine E;
     stripIndent := stripIndent E;
     OPENAI_API_KEY := OPENAI_API_KEY E;
     rate_limits := fun tr p =>
       match rate_limits E tr p with
       | Ok rl => Ok (f rl)
       | Raise e => Raise e
       end;
     openAIKey_of := openAIKey_of E;
     fetch_moderations := fetch_moderations E;
     fetch_embeddings := fetch_embeddings E;
     rpc_match_file_sections := rpc_match_file_sections E;
     fetch_completions := fetch_completions E |}.

(** The prompt after truncation, and the authorization header of the
    moderation and embedding calls. *)
Definition truncated (E : Env) (params : Params) : string :=
  Js.substring0 (MAX_PROMPT_LENGTH E) (params_prompt params).

Definition authorizationOf (E : Env) (openAIKey : option string) : string :=
  "Bearer " ++ template (orElse openAIKey (OPENAI_API_KEY E)).

(** Services whose embedding endpoint fails every time. *)
Definition failingEmbeddingsEnv : Env :=
  sampleEnv allowedCheck notFlagged (fun _ => Raise "TypeError: fetch failed")
            sampleRetrieval sampleEvents.

(** Services that answer every call, with a plain answer. *)
Definition happyEnv : Env :=
  sampleEnv allowedCheck notFlagged (fun _ => sampleEmbedding)
            sampleRetrieval sampleEvents.

Definition refundQuestion : NextRequest :=
  sampleRequest "What is the refund policy?".

(** Services whose embedding endpoint answers every request with an error
    status and a JSON body that describes the error, as it does when it
    throttles: [fetch] resolves, [r.json()] gives an object, and the object
    has no [data]. *)
Definition throttledEmbeddingsEnv : Env :=
  sampleEnv allowedCheck notFlagged
            (fun _ => Ok (Some {| embedding_data := None |}))
            sampleRetrieval sampleEvents.

(** ** Further notions used in the properties *)

(** [s] holds a ['/']. *)
Fixpoint hasSlash (s : string) : bool :=
  match s with
  | EmptyString => false
  | String c r => Ascii.eqb c "/"%char || hasSlash r
  end.

(** What an event adds to [allText]: the text of its chunk, when its data
    is not the sentinel, parses, and has the shape [getChunkText] reads. *)
Definition transcriptOf (model : OpenAIModelIdWithType) (event : ParsedEvent)
    : string :=
  match event with
  | ReconnectInterval _ => ""
  | Event data json =>
      if String.eqb data DONE then ""
      else match json with
           | Raise _ => ""
           | Ok j =>
               match getChunkText j model with
               | Ok x => toString x
               | Raise _ => ""
               end
           end
  end.

(** The event makes the [try] block of [onParse] throw: its data does not
    parse, or the chunk has not the shape [getChunkText] reads. *)
Definition eventFails (model : OpenAIModelIdWithType) (event : ParsedEvent)
    : bool :=
  match event with
  | ReconnectInterval _ => false
  | Event data json =>
      if String.eqb data DONE then false
      else match json with
           | Raise _ => true
           | Ok j =>
               match getChunkText j model with
               | Ok _ => false
               | Raise _ => true
               end
           end
  end.

(** Every string of the list holds a line feed. *)
Definition allHaveLF (ss : list string) : bool := forallb Js.hasLF ss.

Definition isRateLimitCall (c : Call) : bool :=
  match c with RateLimitCall _ => true | _ => false end.

(** The strings of a list, one after the other. *)
Definition concatStrings (l : list string) : string :=
  fold_right append "" l.

(** A chat-style event whose delta carries no content, such as the first
    one of a chat stream, which only names the role. *)
Definition roleOnlyData : string :=
  "{" ++ Js.quote "choices" ++ ":[{" ++ Js.quote "delta" ++ ":{"
  ++ Js.quote "role" ++ ":" ++ Js.quote "assistant" ++ "}}]}".

Definition roleOnlyChunk : CompletionChunk :=
  {| choices := Some [{| delta := Some {| delta_content := Undefined |};
                         text := Undefined |}] |}.

Definition roleOnlyEvent : ParsedEvent := Event roleOnlyData (Ok roleOnlyChunk).

Definition chatModel : OpenAIModelIdWithType :=
  {| type := chat_completions; value := "gpt-3.5-turbo" |}.

(** An event whose chunk has an empty list of choices. *)
Definition noChoiceEvent : ParsedEvent :=
  Event ("{" ++ Js.quote "choices" ++ ":[]}") (Ok {| choices := Some [] |}).

(** ** Handlers on the Node API ([NextApiRequest], [NextApiResponse]) *)

(** Make a call of any kind: write it to the trace and take the answer. *)
Definition invoke {C R A} (c : C) (answer : list C -> Thrown A) : M (list C) R A :=
  fun tr =>
    match answer tr with
    | Ok a => (Next a, (tr ++ [c])%list)
    | Raise e => (Throw e, (tr ++ [c])%list)
    end.

(** A header value set with [res.setHeader]: a number or a list of
    strings. *)
Inductive HeaderValue :=
| HNumber (n : Z)
| HList (l : list string).

(** [res.setHeader(name, value)]: the value replaces one set before under
    the same name. *)
Fixpoint setHeader (name : string) (v : HeaderValue)
    (headers : list (string * HeaderValue)) : list (string * HeaderValue) :=
  match headers with
  | [] => [(name, v)]
  | (k, w) :: rest =>
      if String.eqb k name then (k, v) :: rest
      else (k, w) :: setHeader name v rest
  end.

Fixpoint getHeader (name : string) (headers : list (string * HeaderValue))
    : option HeaderValue :=
  match headers with
  | [] => None
  | (k, w) :: rest => if String.eqb k name then Some w else getHeader name rest
  end.

(** How many entries of a list satisfy [p]. *)
Definition count_if {A} (p : A -> bool) (l : list A) : nat :=
  List.length (filter p l).

(** [x] is a string that is neither missing nor empty. *)
Definition truthy (x : option string) : bool :=
  match x with
  | None => false
  | Some s => negb (String.eqb s "")
  end.

(** [!x] for an object that may be missing. *)
Definition isNone {A} (x : option A) : bool :=
  match x with
  | None => true
  | Some _ => false
  end.

(** ** The training endpoint ([src/unnamed/part_000]) *)

Module Train.

Record FileData := {
  file_path : string;
  file_content : string
}.

Record Body := {
  file : FileData;
  projectId : option string;
  forceRetrain : bool
}.

Record NextApiRequest := {
  method : option string;
  body : Body
}.

(** The JSON bodies the handler sends. *)
Inductive Data :=
| ErrorData (error : string)
| StatusData (status : string)
| OkData (errors : list string).

Record ApiResponse := {
  statusCode : Z;
  headers : list (string * HeaderValue);
  json : Data
}.

Inductive Call :=
| GetSession
| GetChecksums (key : string)
| CheckRateLimits (projectId : option string)
| GetOpenAIKey (projectId : option string)
| GenerateFileEmbeddings (projectId : option string) (file : FileData)
    (openAIKey : option string).

Definition Trace := list Call.

(** What the handler imports and does not define.  [session_user] is the
    id of the user of the session, if there is a session and it has a
    user; [safeGetObject] gives the stored checksums by path. *)
Record Env := {
  session_user : Trace -> Thrown (option string);
  getProjectChecksumsKey : string -> string;
  safeGetObject : Trace -> string -> Thrown (list (string * string));
  createChecksum : string -> string;
  checkEmbeddingsRateLimits : Trace -> option string -> Thrown RateLimitCheck;
  getEmbeddingsRateLimitResponse : Z -> Z -> string;
  getOpenAIKey : Trace -> option string -> Thrown (option string);
  generateFileEmbeddings :
    Trace -> option string -> FileData -> option string -> Thrown (list string)
}.

(** [checksums[path]] *)
Fixpoint lookup (checksums : list (string * string)) (path : string)
    : option string :=
  match checksums with
  | [] => None
  | (k, v) :: rest => if String.eqb k path then Some v else lookup rest path
  end.

(** [previousChecksum === currentChecksum] *)
Definition sameChecksum (previous : option string) (current : string) : bool :=
  match previous with
  | None => false
  | Some p => String.eqb p current
  end.

Definition HM := M Trace ApiResponse.

Section Handler.

Variable E : Env.

Local Open Scope js_scope.

(** The handler.  The headers set so far are threaded through, as [res]
    holds them in the source. *)
Definition handler_body (req : NextApiRequest) : HM unit :=
  (if negb (match method req with
            | Some m => String.eqb m "POST"
            | None => false
            end)
   then return_ {| statusCode := 405;
                   headers := setHeader "Allow" (HList ["POST"]) [];
                   json := ErrorData ("Method " ++ template (method req)
                                      ++ " Not Allowed") |}
   else ret tt) ;;
  user <- invoke GetSession (session_user E) ;;
  (if isNone user
   then return_ {| statusCode := 401; headers := [];
                   json := ErrorData "Unauthorized" |}
   else ret tt) ;;
  let file := file (body req) in
  let projectId := projectId (body req) in
  (if negb (forceRetrain (body req)) && truthy projectId
   then
     checksums <- invoke (GetChecksums (getProjectChecksumsKey E (template projectId)))
                    (fun tr => safeGetObject E tr
                                 (getProjectChecksumsKey E (template projectId))) ;;
     let previousChecksum := lookup checksums (file_path file) in
     let currentChecksum := createChecksum E (file_content file) in
     if sameChecksum previousChecksum currentChecksum
     then return_ {| statusCode := 200; headers := [];
                     json := StatusData "Already processed" |}
     else ret tt
   else ret tt) ;;
  (* Apply rate limits *)
  rateLimitResult <- invoke (CheckRateLimits projectId)
                       (fun tr => checkEmbeddingsRateLimits E tr projectId) ;;
  let hs :=
    setHeader "X-RateLimit-Remaining"
      (HNumber (remaining (result rateLimitResult)))
      (setHeader "X-RateLimit-Limit"
         (HNumber (limit (result rateLimitResult))) []) in
  (if negb (success (result rateLimitResult))
   then return_ {| statusCode := 429; headers := hs;
                   json := StatusData
                             (getEmbeddingsRateLimitResponse E
                                (hours rateLimitResult)
                                (minutes rateLimitResult)) |}
   else ret tt) ;;
  openAIKey <- invoke (GetOpenAIKey projectId)
                 (fun tr => getOpenAIKey E tr projectId) ;;
  errors <- invoke (GenerateFileEmbeddings projectId file openAIKey)
              (fun tr => generateFileEmbeddings E tr projectId file openAIKey) ;;
  return_ {| statusCode := 200; headers := hs; json := OkData errors |}.

Definition handler (req : NextApiRequest) : Exit ApiResponse unit * Trace :=
  handler_body req [].

End Handler.

Definition isCheckRateLimits (c : Call) : bool :=
  match c with CheckRateLimits _ => true | _ => false end.

Definition isGenerate (c : Call) : bool :=
  match c with GenerateFileEmbeddings _ _ _ => true | _ => false end.

Definition isGetChecksums (c : Call) : bool :=
  match c with GetChecksums _ => true | _ => false end.

(** A sample request and sample services: a signed-in user, a stored
    checksum for [docs/a.md], a limiter that answers [rl]. *)
Definition sampleFile : FileData :=
  {| file_path := "docs/a.md"; file_content := "# A" |}.

Definition sampleRequest (force : bool) : NextApiRequest :=
  {| method := Some "POST";
     body := {| file := sampleFile; projectId := Some "project-1";
                forceRetrain := force |} |}.

Definition sampleEnv (stored : string) (rl : RateLimitCheck) : Env :=
  {| session_user := fun _ => Ok (Some "user-1");
     getProjectChecksumsKey := fun p => ("checksums:" ++ p)%string;
     safeGetObject := fun _ _ => Ok [("docs/a.md", stored)];
     createChecksum := fun c => ("md5:" ++ c)%string;
     checkEmbeddingsRateLimits := fun _ _ => Ok rl;
     getEmbeddingsRateLimitResponse := fun h m =>
       if h =? 0 then "Too many requests. Please try again in a few minutes."
       else "Too many requests. Please try again in a few hours.";
     getOpenAIKey := fun _ _ => Ok None;
     generateFileEmbeddings := fun _ _ _ _ => Ok [] |}.

End Train.

(** ** The teams endpoint ([src/pages/api/teams/index.ts]) *)

Module Teams.

(** A row of [teams], as far as the handler sets or reads its columns;
    [rest] holds the other columns as sent by the client. *)
Record Team := {
  id : string;
  slug : string;
  is_personal : bool;
  created_by : string;
  rest : list (string * string)
}.

(** The row the handler inserts: it has no [id] yet. *)
Record NewTeam := {
  new_rest : list (string * string);
  new_is_personal : bool;
  new_slug : string;
  new_created_by : string
}.

Record Membership := {
  user_id : string;
  team_id : string;
  type : string
}.

Record Body := {
  candidateSlug : string;
  isPersonal : bool;
  body_rest : list (string * string)
}.

Record NextApiRequest := {
  method : option string;
  body : Body
}.

Inductive Data :=
| ErrorData (error : string)
| StatusData (status : string)
| TeamsData (teams : list Team)
| TeamData (team : Team).

Record ApiResponse := {
  statusCode : Z;
  headers : list (string * HeaderValue);
  json : Data
}.

(** What a query gives back: [data] and [error]. *)
Record QueryResult (A : Type) := {
  data : option A;
  error : option string
}.

Arguments data {A} _.
Arguments error {A} _.

Inductive Call :=
| GetSession
| SelectMemberships (user : string)
| GetAvailableTeamSlug (candidate : string)
| InsertTeam (row : NewTeam)
| InsertMembership (row : Membership).

Definition Trace := list Call.

(** The rows of [memberships] that match, each with its team. *)
Record MembershipRow := {
  row_user_id : string;
  teams : Team
}.

Record Env := {
  session_user : Trace -> Thrown (option string);
  select_memberships : Trace -> string -> QueryResult (list MembershipRow);
  getAvailableTeamSlug : Trace -> string -> Thrown string;
  insert_team : Trace -> NewTeam -> QueryResult Team;
  insert_membership : Trace -> Membership -> option string
}.

Definition allowedMethods : list string := ["GET"; "POST"].

(** [req.method === name] *)
Definition isMethod (m : option string) (name : string) : bool :=
  match m with
  | Some m => String.eqb m name
  | None => false
  end.

Definition HM := M Trace ApiResponse.

Definition respond (st : Z) (d : Data) : ApiResponse :=
  {| statusCode := st; headers := []; json := d |}.

Section Handler.

Variable E : Env.

Local Open Scope js_scope.

Definition handler_body (req : NextApiRequest) : HM unit :=
  (if match method req with
      | None => true
      | Some m => String.eqb m "" || negb (Js.includes allowedMethods m)
      end
   then return_ {| statusCode := 405;
                   headers := setHeader "Allow" (HList allowedMethods) [];
                   json := ErrorData ("Method " ++ template (method req)
                                      ++ " Not Allowed") |}
   else ret tt) ;;
  user <- invoke GetSession (session_user E) ;;
  match user with
  | None => return_ (respond 401 (ErrorData "Unauthorized"))
  | Some user_id =>
      if isMethod (method req) "GET" then
        r <- invoke (SelectMemberships user_id)
               (fun tr => Ok (select_memberships E tr user_id)) ;;
        match error r with
        | Some message => return_ (respond 400 (ErrorData message))
        | None =>
            let teams :=
              match data r with
              | Some rows => map teams rows
              | None => []
              end in
            return_ (respond 200 (TeamsData teams))
        end
      else if isMethod (method req) "POST" then
        let b := body req in
        slug <- invoke (GetAvailableTeamSlug (candidateSlug b))
                  (fun tr => getAvailableTeamSlug E tr (candidateSlug b)) ;;
        let row :=
          {| new_rest := body_rest b; new_is_personal := isPersonal b;
             new_slug := slug; new_created_by := user_id |} in
        r <- invoke (InsertTeam row) (fun tr => Ok (insert_team E tr row)) ;;
        match error r with
        | Some message => return_ (respond 400 (ErrorData message))
        | None =>
            match data r with
            | None => return_ (respond 400 (ErrorData "Unable to create team"))
            | Some team =>
                (* Automatically add the creator of the team as an admin
                   member. *)
                let m := {| user_id := user_id; team_id := id team;
                            type := "admin" |} in
                membershipError <-
                  invoke (InsertMembership m)
                    (fun tr => Ok (insert_membership E tr m)) ;;
                match membershipError with
                | Some message => return_ (respond 400 (ErrorData message))
                | None => return_ (respond 200 (TeamData team))
                end
            end
        end
      else return_ (respond 200 (StatusData "ok"))
  end.

Definition handler (req : NextApiRequest) : Exit ApiResponse unit * Trace :=
  handler_body req [].

End Handler.

Definition isInsertTeam (c : Call) : bool :=
  match c with InsertTeam _ => true | _ => false end.

Definition isInsertMembership (c : Call) : bool :=
  match c with InsertMembership _ => true | _ => false end.

Definition isWrite (c : Call) : bool := isInsertTeam c || isInsertMembership c.

(** Sample services: a signed-in user, a free slug, a team insert that
    succeeds, and a membership insert that answers [membershipError]. *)
Definition sampleTeam : Team :=
  {| id := "team-9"; slug := "acme-2"; is_personal := false;
     created_by := "user-1"; rest := [("name", "Acme")] |}.

Definition sampleEnv (membershipError : option string) : Env :=
  {| session_user := fun _ => Ok (Some "user-1");
     select_memberships := fun _ _ =>
       {| data := Some [{| row_user_id := "user-1"; teams := sampleTeam |}];
          error := None |};
     getAvailableTeamSlug := fun _ c => Ok (c ++ "-2")%string;
     insert_team := fun _ _ => {| data := Some sampleTeam; error := None |};
     insert_membership := fun _ _ => membershipError |}.

Definition createRequest : NextApiRequest :=
  {| method := Some "POST";
     body := {| candidateSlug := "acme"; isPersonal := false;
                body_rest := [("name", "Acme")] |} |}.

End Teams.

(** * Properties *)

(** ** Context budgeting *)

Local Open Scope list_scope.

Lemma append_assoc_str (a b c : string) :
  ((a ++ b) ++ c)%string = (a ++ (b ++ c))%string.
Proof. induction a as [|x a IH]; simpl; [reflexivity | now rewrite IH]. Qed.

Lemma append_empty_r (a : string) : (a ++ "")%string = a.
Proof. induction a as [|x a IH]; simpl; [reflexivity | now rewrite IH]. Qed.

Lemma includes_In (acc : list string) (p : string) :
  Js.includes acc p = true <-> In p acc.
Proof.
  unfold Js.includes. rewrite existsb_exists. split.
  - intros (x & Hin & Heq). apply String.eqb_eq in Heq. now subst.
  - intros Hin. exists p. split; [assumption | apply String.eqb_refl].
Qed.

Lemma includes_app (a b : list string) (p : string) :
  Js.includes (a ++ b) p = Js.includes a p || Js.includes b p.
Proof. unfold Js.includes. apply existsb_app. Qed.

Lemma filter_remove_absorb (f : string -> bool) (p : string) (l : list string) :
  f p = false -> filter f (remove string_dec p l) = filter f l.
Proof.
  intros Hp. induction l as [|x l IH]; simpl; [reflexivity|].
  destruct (string_dec p x) as [->|Hne].
  - now rewrite Hp.
  - simpl. now rewrite IH.
Qed.

Lemma filter_snoc_remove (acc : list string) (p : string) (l : list string) :
  filter (fun x => negb (Js.includes (acc ++ [p]) x)) l =
  filter (fun x => negb (Js.includes acc x)) (remove string_dec p l).
Proof.
  induction l as [|x l IH]; simpl; [reflexivity|].
  rewrite includes_app. destruct (string_dec p x) as [->|Hne].
  - unfold Js.includes at 2. simpl. rewrite String.eqb_refl.
    rewrite orb_true_r. simpl. exact IH.
  - unfold Js.includes at 2. simpl.
    assert (String.eqb x p = false) as ->
      by (apply String.eqb_neq; congruence).
    simpl. rewrite orb_false_r.
    destruct (Js.includes acc x); simpl; now rewrite IH.
Qed.

Lemma fold_pushNew_firstSeen (l acc : list string) :
  fold_left pushNew l acc =
  acc ++ filter (fun x => negb (Js.includes acc x)) (firstSeen l).
Proof.
  revert acc. induction l as [|p l IH]; intros acc; simpl.
  - now rewrite app_nil_r.
  - rewrite IH. unfold pushNew.
    destruct (Js.includes acc p) eqn:Hinc; simpl.
    + now rewrite filter_remove_absorb by (now rewrite Hinc).
    + rewrite <- app_assoc. simpl. now rewrite filter_snoc_remove.
Qed.

Lemma fold_pushNew_nil (l : list string) : fold_left pushNew l [] = firstSeen l.
Proof.
  rewrite fold_pushNew_firstSeen. simpl.
  induction (firstSeen l) as [|x r IH]; simpl; [reflexivity | now rewrite IH].
Qed.

(** The loop, started anywhere: it takes the sections that fit. *)
Lemma budget_loop_prefix (secs : list FileSection) (b : Budget) :
  exists k,
    fits (numTokens b) secs k /\
    contextText (budget_loop secs b) =
      (contextText b ++ concatText (firstn k secs))%string /\
    references (budget_loop secs b) =
      fold_left pushNew (map path (firstn k secs)) (references b).
Proof.
  revert b. induction secs as [|s secs IH]; intros b.
  - exists 0%nat. simpl. rewrite append_empty_r. unfold fits.
    repeat split; simpl; try lia.
  - simpl. destruct (Z.geb_spec (numTokens b + token_count s) CONTEXT_TOKENS_CUTOFF) as [Hge|Hlt].
    + exists 0%nat. simpl. rewrite append_empty_r. unfold fits.
      repeat split; simpl; try lia.
    + match goal with |- context [budget_loop secs ?b'] => destruct (IH b') as (k & (Hk & Hlow & Hhigh) & Hctx & Hrefs) end.
      cbn [numTokens contextText references] in *.
      exists (S k). unfold fits. repeat split.
      * cbn [List.length]. lia.
      * intros j Hj. destruct j as [|j]; [lia|].
        change (firstn (S j) (s :: secs)) with (s :: firstn j secs).
        cbn [tokenTotal fold_right]. fold (tokenTotal (firstn j secs)).
        destruct j as [|j].
        -- cbn. lia.
        -- specialize (Hlow (S j) ltac:(lia)). lia.
      * intros Hlen. cbn [List.length] in Hlen.
        specialize (Hhigh ltac:(lia)).
        change (firstn (S (S k)) (s :: secs)) with (s :: firstn (S k) secs).
        cbn [tokenTotal fold_right]. fold (tokenTotal (firstn (S k) secs)). lia.
      * rewrite Hctx. simpl. unfold sectionText.
        now rewrite !append_assoc_str.
      * rewrite Hrefs. reflexivity.
Qed.

(** C3.  For every ranked list of sections, the context assembled by the
    loop is the concatenation, in order, of trimmed content plus separator
    of the longest prefix whose running token totals all stay strictly below
    800, and the references are the distinct paths of that prefix in order
    of first appearance; a first section of 800 tokens or more leaves both
    empty; for token counts 500, 400, 100 only the first section is taken
    and the references are its path alone. *)
Theorem C3_context_is_maximal_prefix_below_cutoff :
  (forall secs : list FileSection,
     exists k,
       fits 0 secs k /\
       contextText (assembleContext secs) = concatText (firstn k secs) /\
       references (assembleContext secs) = firstSeen (map path (firstn k secs)))
  /\
  (forall (s : FileSection) (rest : list FileSection),
     token_count s >= 800 ->
     contextText (assembleContext (s :: rest)) = "" /\
     references (assembleContext (s :: rest)) = [])
  /\
  (forall p0 c0 m0 p1 c1 m1 p2 c2 m2,
     let b := assembleContext
                [mkSection p0 c0 500 m0; mkSection p1 c1 400 m1;
                 mkSection p2 c2 100 m2] in
     contextText b = (Js.trim c0 ++ SECTION_SEPARATOR)%string /\
     references b = [p0]).
Proof.
  split; [|split].
  - intros secs. unfold assembleContext.
    destruct (budget_loop_prefix secs Budget_init) as (k & Hfit & Hctx & Hrefs).
    exists k. split; [exact Hfit|]. split.
    + rewrite Hctx. reflexivity.
    + rewrite Hrefs. apply fold_pushNew_nil.
  - intros s rest Hs. unfold assembleContext. simpl.
    destruct (Z.geb_spec (token_count s) CONTEXT_TOKENS_CUTOFF) as [_|Hn].
    + split; reflexivity.
    + unfold CONTEXT_TOKENS_CUTOFF in Hn. lia.
  - intros. subst b. split; reflexivity.
Qed.

(** The second part of C3 at a section of exactly 800 tokens. *)
Lemma C3_witness :
  800 >= 800 /\
  contextText (assembleContext [mkSection "a.md" "big" 800 1; mkSection "b.md" "small" 1 1]) = "" /\
  references (assembleContext [mkSection "a.md" "big" 800 1; mkSection "b.md" "small" 1 1]) = [].
Proof.
  split; [lia|].
  apply (proj1 (proj2 C3_context_is_maximal_prefix_below_cutoff)
           (mkSection "a.md" "big" 800 1) [mkSection "b.md" "small" 1 1]).
  simpl. lia.
Defined.

(** ** The stream transformer *)

(** Run the [try] block of [onParse] by cases: on what [JSON.parse] gave, on
    what [getChunkText] gave, and on the filter. *)
Ltac onParse_cases json model :=
  unfold onParse_try, bind, get, enqueue, set_didSendHeader, append_allText,
    incr_counter, modify, await, ret, return_, throw, error_stream,
    controller_enqueue, controller_error, isReadable;
  cbn [didSendHeader controller enqueued status counter allText negb];
  destruct json as [j|?];
  cbn [didSendHeader controller enqueued status counter allText negb];
  [ let x := fresh "x" in
    destruct (getChunkText j model) as [x|?];
    cbn [didSendHeader controller enqueued status counter allText negb];
    [ match goal with
      | |- context [(?c <? 2) && matchesLF x] =>
          destruct ((c <? 2) && matchesLF x) eqn:?
      end;
      cbn [didSendHeader controller enqueued status counter allText negb]
    | ]
  | ].

Section StreamFacts.

Variable separator : string.
Variable refs : list string.
Variable model : OpenAIModelIdWithType.

Local Abbreviation onParse' := (onParse separator refs model).
Local Abbreviation feed' := (feed separator refs model).
Local Abbreviation start' := (start separator refs model).
Local Abbreviation frame := (referencesFrame separator refs).

Lemma onParse_skips (event : ParsedEvent) (t : Transformer) :
  isDataEvent event = false -> onParse' event t = t.
Proof.
  destruct event as [v|data json]; simpl; [reflexivity|].
  destruct (String.eqb data DONE); [reflexivity | discriminate].
Qed.

Lemma onParse_HeaderFirst (event : ParsedEvent) (t : Transformer) :
  HeaderFirst frame t ->
  HeaderFirst frame (onParse' event t) /\
  (isDataEvent event = true -> didSendHeader (onParse' event t) = true).
Proof.
  intros H. destruct (isDataEvent event) eqn:Hev.
  2:{ rewrite onParse_skips by assumption. split; [assumption | discriminate]. }
  destruct event as [v|data json]; [discriminate|]. simpl in Hev.
  unfold onParse. destruct (String.eqb data DONE); [discriminate|].
  destruct t as [cnt txt hdr [out st]].
  unfold HeaderFirst in *. cbn [didSendHeader controller enqueued status] in H.
  destruct H as [(-> & -> & ->) | (-> & cs & ->)].
  - onParse_cases json model.
    all: split; [right; split; [reflexivity|] | reflexivity].
    all: try (exists []; reflexivity).
    all: eexists [_]; reflexivity.
  - destruct st; onParse_cases json model.
    all: split; [right; split; [reflexivity|] | reflexivity].
    all: try (exists cs; reflexivity).
    all: exists (cs ++ [encode x]); rewrite map_app; reflexivity.
Qed.

Lemma feed_app (xs ys : list ParsedEvent) (t : Transformer) :
  feed' (xs ++ ys) t = feed' ys (feed' xs t).
Proof. unfold feed. apply fold_left_app. Qed.

Lemma onParse_keeps_header (event : ParsedEvent) (t : Transformer) :
  didSendHeader t = true -> didSendHeader (onParse' event t) = true.
Proof.
  intros Hh. destruct event as [v|data json]; simpl; [assumption|].
  destruct (String.eqb data DONE); [assumption|].
  destruct t as [cnt txt hdr [out st]]. simpl in Hh. subst hdr.
  destruct st; onParse_cases json model; reflexivity.
Qed.

Lemma feed_keeps_header (events : list ParsedEvent) (t : Transformer) :
  didSendHeader t = true -> didSendHeader (feed' events t) = true.
Proof.
  revert t. induction events as [|event events IH]; intros t Hh; [assumption|].
  change (feed' (event :: events) t) with (feed' events (onParse' event t)).
  apply IH. now apply onParse_keeps_header.
Qed.

Lemma feed_HeaderFirst (events : list ParsedEvent) (t : Transformer) :
  HeaderFirst frame t ->
  HeaderFirst frame (feed' events t) /\
  (existsb isDataEvent events = true -> didSendHeader (feed' events t) = true).
Proof.
  revert t. induction events as [|event events IH]; intros t H.
  - split; [assumption | discriminate].
  - destruct (onParse_HeaderFirst event t H) as [H1 Hsent].
    destruct (IH _ H1) as [H2 Hrest].
    change (feed' (event :: events) t) with (feed' events (onParse' event t)).
    split; [assumption|].
    cbn [existsb]. intros Hex. apply orb_true_iff in Hex as [Hd|Hr].
    + apply feed_keeps_header. auto.
    + auto.
Qed.

Lemma feed_no_data_event (events : list ParsedEvent) (t : Transformer) :
  existsb isDataEvent events = false -> feed' events t = t.
Proof.
  revert t. induction events as [|event events IH]; intros t H; [reflexivity|].
  cbn [existsb] in H. apply orb_false_iff in H as [He Hr].
  change (feed' (event :: events) t) with (feed' events (onParse' event t)).
  rewrite onParse_skips by assumption. auto.
Qed.

Lemma start_enqueued (events : list ParsedEvent) (t : Transformer) :
  enqueued (controller (start' events t)) = enqueued (controller (feed' events t)).
Proof.
  unfold start, controller_close.
  destruct (isReadable (controller (feed' events t))); reflexivity.
Qed.

Lemma start_status (events : list ParsedEvent) (t : Transformer) :
  status (controller (start' events t)) =
  match status (controller (feed' events t)) with
  | Readable => Closed
  | other => other
  end.
Proof.
  unfold start, controller_close, isReadable.
  destruct (status (controller (feed' events t))) eqn:Hs; simpl; auto.
Qed.

Lemma countReferencesFrames_content (cs : list string) :
  countReferencesFrames (map ContentFrame cs) = 0%nat.
Proof.
  unfold countReferencesFrames.
  induction cs as [|c cs IH]; simpl; [reflexivity | exact IH].
Qed.

End StreamFacts.

(** C1 (as amended).  Whatever the upstream sends, the output is either
    empty or the references frame (the JSON text of the reference list
    followed by the separator) followed by content frames only: the frame
    is sent at most once and before any content.  It is sent exactly when
    the upstream delivers at least one event other than the sentinel; when
    there is none, the stream is closed with nothing in it. *)
Theorem C1_references_frame_first_iff_some_data_event
    (separator : string) (refs : list string) (model : OpenAIModelIdWithType)
    (events : list ParsedEvent) (fullPrompt : string) :
  let final := start separator refs model events (Transformer_init fullPrompt) in
  let out := outputOf separator refs model events fullPrompt in
  referencesFrame separator refs =
    ReferencesFrame (Js.JSON_stringify refs ++ separator)%string /\
  (if existsb isDataEvent events
   then exists cs, out = referencesFrame separator refs :: map ContentFrame cs
   else out = [] /\ status (controller final) = Closed) /\
  countReferencesFrames out = (if existsb isDataEvent events then 1 else 0)%nat.
Proof.
  intros final out. split; [reflexivity|].
  assert (H0 : HeaderFirst (referencesFrame separator refs)
                 (Transformer_init fullPrompt))
    by (left; repeat split; reflexivity).
  destruct (feed_HeaderFirst separator refs model events _ H0) as [H Hsent].
  subst out final. unfold outputOf. rewrite start_enqueued, start_status.
  destruct (existsb isDataEvent events) eqn:Hex.
  - specialize (Hsent eq_refl).
    destruct H as [(Hf & _) | (_ & cs & Hcs)]; [congruence|].
    rewrite Hcs. split; [exists cs; reflexivity|].
    unfold countReferencesFrames. cbn [filter isReferencesFrame referencesFrame].
    cbn [List.length]. f_equal. apply countReferencesFrames_content.
  - rewrite feed_no_data_event by assumption. repeat split; reflexivity.
Qed.

(** C1 as stated fails: when the upstream sends the sentinel and nothing
    before it, no references frame is sent at all. *)
Lemma C1_counterexample :
  countReferencesFrames
    (outputOf "___START_RESPONSE_STREAM___" ["docs/a.md"] sampleModel
       [doneEvent] "prompt") <> 1%nat.
Proof. vm_compute. discriminate. Qed.

(** C8 (as amended).  The sentinel event emits nothing and changes nothing:
    the transformer ends in the same state as if the sentinel had not been
    there, so with nothing after the sentinel nothing is emitted after it;
    events that follow it are handled like any other.  The stream is closed
    when the upstream body ends, unless it had errored before. *)
Theorem C8_sentinel_is_skipped_and_stream_closed_at_end
    (separator : string) (refs : list string) (model : OpenAIModelIdWithType)
    (pre post : list ParsedEvent) (json : Thrown CompletionChunk)
    (t : Transformer) :
  onParse separator refs model (Event DONE json) t = t /\
  start separator refs model (pre ++ Event DONE json :: post) t =
    start separator refs model (pre ++ post) t /\
  start separator refs model (pre ++ [Event DONE json]) t =
    start separator refs model pre t /\
  status (controller (start separator refs model (pre ++ post) t)) =
    match status (controller (feed separator refs model (pre ++ post) t)) with
    | Readable => Closed
    | other => other
    end.
Proof.
  assert (Hskip : forall t', onParse separator refs model (Event DONE json) t' = t')
    by (intros t'; apply onParse_skips; reflexivity).
  assert (Hfeed : forall xs ys,
            feed separator refs model (xs ++ Event DONE json :: ys) t =
            feed separator refs model (xs ++ ys) t).
  { intros xs ys. rewrite !feed_app.
    change (feed separator refs model (Event DONE json :: ys)
              (feed separator refs model xs t))
      with (feed separator refs model ys
              (onParse separator refs model (Event DONE json)
                 (feed separator refs model xs t))).
    now rewrite Hskip. }
  split; [apply Hskip|]. split; [|split].
  - unfold start. now rewrite Hfeed.
  - unfold start. rewrite Hfeed. now rewrite app_nil_r.
  - apply start_status.
Qed.

(** C8 as stated fails: an event that follows the sentinel is forwarded. *)
Lemma C8_counterexample :
  contentOf
    (outputOf "___START_RESPONSE_STREAM___" ["docs/a.md"] sampleModel
       [textEvent "Hello"; doneEvent; textEvent " late"] "prompt")
  <> contentOf
    (outputOf "___START_RESPONSE_STREAM___" ["docs/a.md"] sampleModel
       [textEvent "Hello"; doneEvent] "prompt").
Proof. vm_compute. discriminate. Qed.

(** The filter, for an event that parses to a text, once the header is out
    and while the stream is readable: the chunk is dropped when fewer than
    two chunks were forwarded and it holds a line feed anywhere. *)
Lemma onParse_filter (separator : string) (refs : list string)
    (model : OpenAIModelIdWithType) (data : string) (j : CompletionChunk)
    (x : JsText) (t : Transformer) :
  String.eqb data DONE = false ->
  getChunkText j model = Ok x ->
  didSendHeader t = true ->
  status (controller t) = Readable ->
  let t' := onParse separator refs model (Event data (Ok j)) t in
  if (counter t <? 2) && matchesLF x
  then enqueued (controller t') = enqueued (controller t) /\
       counter t' = counter t
  else enqueued (controller t') = enqueued (controller t) ++ [ContentFrame (encode x)] /\
       counter t' = counter t + 1.
Proof.
  intros Hd Hx Hh Hs. destruct t as [cnt txt hdr [out st]].
  cbn [didSendHeader controller status counter enqueued] in *. subst hdr st.
  unfold onParse. rewrite Hd.
  unfold onParse_try, bind, get, enqueue, set_didSendHeader, append_allText,
    incr_counter, modify, await, ret, return_, throw, error_stream,
    controller_enqueue, controller_error, isReadable.
  cbn [didSendHeader controller enqueued status counter allText negb].
  rewrite Hx.
  cbn [didSendHeader controller enqueued status counter allText negb].
  destruct ((cnt <? 2) && matchesLF x); cbn; split; reflexivity.
Qed.

(** C2.  What the filter does on the two sequences of the claim.  The
    blank-line chunks of [["\n"; "\n\n"; "Hello"; " world"]] are dropped
    and the rest is forwarded.  A first chunk that holds a line feed
    together with other text is dropped as well, not forwarded: the test
    is [/\n/], which finds a line feed anywhere in the chunk. *)
Theorem C2_filter_drops_any_early_chunk_holding_a_newline :
  contentOf
    (outputOf "___START_RESPONSE_STREAM___" ["docs/a.md"] sampleModel
       [textEvent NL; textEvent (NL ++ NL); textEvent "Hello";
        textEvent " world"; doneEvent] "prompt")
  = ["Hello"; " world"]
  /\
  contentOf
    (outputOf "___START_RESPONSE_STREAM___" ["docs/a.md"] sampleModel
       [textEvent ("Hi" ++ NL ++ "there"); textEvent "!"; doneEvent] "prompt")
  = ["!"].
Proof. split; vm_compute; reflexivity. Qed.

(** ** Retrying the embedding call *)

Lemma count_app (p : Call -> bool) (a b : Trace) :
  count p (a ++ b) = (count p a + count p b)%nat.
Proof. unfold count. now rewrite filter_app, length_app. Qed.

Lemma delaysOf_app (a b : Trace) : delaysOf (a ++ b) = delaysOf a ++ delaysOf b.
Proof. unfold delaysOf. apply flat_map_app. Qed.

Lemma delaysOf_delays (l : list Z) : delaysOf (map BackoffDelay l) = l.
Proof. induction l as [|x l IH]; simpl; [reflexivity | now rewrite IH]. Qed.

Lemma count_delays (p : Call -> bool) (l : list Z) :
  (forall ms, p (BackoffDelay ms) = false) ->
  count p (map BackoffDelay l) = 0%nat.
Proof.
  intros Hp. unfold count. induction l as [|x l IH]; simpl; [reflexivity|].
  now rewrite Hp.
Qed.

Section Backoff.

Variable E : Env.
Variable input : string.
Variable openAIKey : option string.
Variable o : BackoffOptions.

Local Abbreviation request := (createEmbedding E input openAIKey).
Local Abbreviation c := (embeddingCallOf E input openAIKey).

Lemma delayBefore_run (attemptNumber : nat) (tr : Trace) :
  delayBefore o attemptNumber tr =
  (Next tt, tr ++ map BackoffDelay (delayOf o attemptNumber)).
Proof.
  destruct attemptNumber as [|k]; simpl.
  - unfold ret. now rewrite app_nil_r.
  - reflexivity.
Qed.

Lemma createEmbedding_run (tr : Trace) :
  snd (request tr) = tr ++ [c] /\
  forall r, fst (request tr) <> Return r.
Proof.
  unfold createEmbedding, call, embeddingCallOf.
  match goal with |- context [fetch_embeddings E tr ?a ?m ?i] =>
    destruct (fetch_embeddings E tr a m i) end; split; try reflexivity;
    intros r; discriminate.
Qed.

(** [backOff] makes between one and [remaining] attempts, never returns
    from the handler, and throws only after the last attempt. *)
Lemma backOff_from_run (remaining attemptNumber : nat) (tr : Trace) :
  (1 <= remaining)%nat ->
  exists k,
    (1 <= k <= remaining)%nat /\
    snd (backOff_from remaining attemptNumber request o tr) =
      tr ++ attemptCalls o c attemptNumber k /\
    (forall r, fst (backOff_from remaining attemptNumber request o tr) <> Return r) /\
    (forall e, fst (backOff_from remaining attemptNumber request o tr) = Throw e ->
               k = remaining).
Proof.
  revert attemptNumber tr.
  induction remaining as [|n IH]; intros attemptNumber tr Hn; [lia|].
  cbn [backOff_from]. unfold bind. rewrite delayBefore_run.
  unfold try_catch.
  destruct (createEmbedding_run (tr ++ map BackoffDelay (delayOf o attemptNumber)))
    as [Htr Hret].
  destruct (request (tr ++ map BackoffDelay (delayOf o attemptNumber)))
    as [[a|r|e] tr'] eqn:Hreq; cbn [fst snd] in *.
  - exists 1%nat. repeat split; try lia.
    + rewrite Htr. cbn [attemptCalls]. now rewrite app_nil_r, !app_assoc.
    + intros r; discriminate.
    + intros e; discriminate.
  - exfalso. now apply (Hret r).
  - destruct n as [|n].
    + exists 1%nat. repeat split; try lia.
      * cbn [snd]. rewrite Htr. cbn [attemptCalls].
        now rewrite app_nil_r, !app_assoc.
      * intros r; discriminate.
    + destruct (IH (S attemptNumber) tr' ltac:(lia)) as (k & Hk & Hsnd & Hnr & Hthrow).
      exists (S k). repeat split; try lia.
      * rewrite Hsnd, Htr. cbn [attemptCalls]. now rewrite !app_assoc.
      * exact Hnr.
      * intros e' He'. specialize (Hthrow e' He'). lia.
Qed.

(** When every attempt fails, [backOff] throws. *)
Lemma backOff_from_exhausted (remaining attemptNumber : nat) (tr : Trace) :
  (1 <= remaining)%nat ->
  (forall tr' a m i, exists e, fetch_embeddings E tr' a m i = Raise e) ->
  exists e, fst (backOff_from remaining attemptNumber request o tr) = Throw e.
Proof.
  intros Hn Hfail. revert attemptNumber tr.
  induction remaining as [|n IH]; intros attemptNumber tr; [lia|].
  cbn [backOff_from]. unfold bind. rewrite delayBefore_run.
  unfold try_catch, createEmbedding, call.
  match goal with |- context [fetch_embeddings E ?t ?a ?m ?i] =>
    destruct (Hfail t a m i) as [e He]; rewrite He end.
  destruct n as [|n].
  - exists e. reflexivity.
  - apply IH. lia.
Qed.

Lemma count_attemptCalls (attemptNumber k : nat) :
  count isEmbeddingCall (attemptCalls o c attemptNumber k) = k /\
  count isModerationCall (attemptCalls o c attemptNumber k) = 0%nat /\
  count isRetrievalCall (attemptCalls o c attemptNumber k) = 0%nat /\
  count isCompletionCall (attemptCalls o c attemptNumber k) = 0%nat /\
  delaysOf (attemptCalls o c attemptNumber k) = schedule o attemptNumber k.
Proof.
  revert attemptNumber. induction k as [|k IH]; intros attemptNumber.
  - repeat split; reflexivity.
  - destruct (IH (S attemptNumber)) as (H1 & H2 & H3 & H4 & H5).
    cbn [attemptCalls schedule].
    rewrite !count_app, !delaysOf_app, H1, H2, H3, H4, H5.
    rewrite delaysOf_delays.
    rewrite (count_delays isEmbeddingCall), (count_delays isModerationCall),
      (count_delays isRetrievalCall), (count_delays isCompletionCall)
      by reflexivity.
    repeat split; reflexivity.
Qed.

Lemma In_attemptCalls (attemptNumber k : nat) (x : Call) :
  In x (attemptCalls o c attemptNumber k) ->
  x = c \/ exists ms, x = BackoffDelay ms.
Proof.
  revert attemptNumber. induction k as [|k IH]; intros attemptNumber Hin.
  - destruct Hin.
  - cbn [attemptCalls] in Hin. apply in_app_or in Hin as [Hin|Hin].
    + apply in_map_iff in Hin as (ms & <- & _). right. now exists ms.
    + destruct Hin as [<-|Hin]; [now left | eauto].
Qed.

Lemma schedule_prefix (attemptNumber k n : nat) :
  (k <= n)%nat ->
  exists rest, schedule o attemptNumber n = schedule o attemptNumber k ++ rest.
Proof.
  revert attemptNumber n. induction k as [|k IH]; intros attemptNumber n Hk.
  - exists (schedule o attemptNumber n). reflexivity.
  - destruct n as [|n]; [lia|].
    destruct (IH (S attemptNumber) n ltac:(lia)) as [rest Hrest].
    exists rest. cbn [schedule]. rewrite Hrest. now rewrite app_assoc.
Qed.

End Backoff.

(** ** The handler *)

(** Unfold the handler down to the decisions it takes, and take them one
    after the other, innermost first. *)
Ltac handler_unfold :=
  cbv [handler handler_body bind ret return_ throw await call try_catch
       createModeration].

Ltac handler_step :=
  match goal with
  | |- context [match ?x with _ => _ end] =>
      lazymatch x with
      | context [match _ with _ => _ end] => fail
      | _ => destruct x eqn:?
      end
  end; cbv beta iota.

Ltac handler_paths := handler_unfold; repeat handler_step.

Lemma backOff_embedding_run (E : Env) (input : string) (key : option string)
    (tr tr' : Trace) (out : Exit Response (option CreateEmbeddingResponse)) :
  backOff (createEmbedding E input key) embeddingBackoff tr = (out, tr') ->
  exists k,
    (1 <= k <= 10)%nat /\
    tr' = tr ++ attemptCalls embeddingBackoff (embeddingCallOf E input key) 0 k /\
    (forall r, out <> Return r) /\
    (forall e, out = Throw e -> k = 10%nat).
Proof.
  intros H.
  destruct (backOff_from_run E input key embeddingBackoff 10 0 tr ltac:(lia))
    as (k & Hk & Hsnd & Hret & Hthrow).
  change (backOff_from 10 0 (createEmbedding E input key) embeddingBackoff tr)
    with (backOff (createEmbedding E input key) embeddingBackoff tr) in *.
  rewrite H in *. cbn [fst snd] in *. exists k. auto.
Qed.

(** A request that passes validation: a POST with a body, a project and a
    prompt that is not empty after truncation. *)
Section Accepted.

Variable E : Env.
Variable req : NextRequest.
Variable params : Params.
Variable pid : string.

Hypothesis Hmethod : method req = "POST".
Hypothesis Hjson : json_body req = Ok params.
Hypothesis Hproject : projectIdParam_of req = Some pid.
Hypothesis Hpid : pid <> "".
Hypothesis Hprompt : truncated E params <> "".

Ltac accepted :=
  handler_unfold; rewrite Hmethod, Hjson, Hproject;
  change (String.eqb "POST" "OPTIONS") with false;
  change (negb (String.eqb "POST" "POST")) with false;
  cbv beta iota; cbn [falsy template];
  rewrite (proj2 (String.eqb_neq pid "") Hpid);
  fold (truncated E params);
  rewrite (proj2 (String.eqb_neq (truncated E params) "") Hprompt);
  cbv beta iota; cbn [app].

(** C4 (as amended).  When the rate limiter refuses the project, the
    handler answers 429 with the fixed text [Too many requests], which
    names no retry window, and the call to the rate limiter is the only
    call it makes: no moderation, embedding, retrieval or completion
    call. *)
Theorem C4_rate_limited_stops_before_any_paid_call (rl : RateLimitCheck) :
  rate_limits E [] pid = Ok rl ->
  success (result rl) = false ->
  handler E req =
    (Return (new_Response "Too many requests" 429), [RateLimitCall pid]) /\
  count isModerationCall (snd (handler E req)) = 0%nat /\
  count isEmbeddingCall (snd (handler E req)) = 0%nat /\
  count isRetrievalCall (snd (handler E req)) = 0%nat /\
  count isCompletionCall (snd (handler E req)) = 0%nat.
Proof.
  intros Hrl Hdenied.
  assert (Heq : handler E req =
            (Return (new_Response "Too many requests" 429), [RateLimitCall pid])).
  { accepted. rewrite Hrl, Hdenied. reflexivity. }
  rewrite Heq. repeat split; reflexivity.
Qed.

(** C5.  What the handler does when moderation flags the sanitized query:
    it throws [Flagged content] and builds no response, where every other
    failure of the handler is answered with a plain-text response; so
    there is no 400, but also no stream, and the moderation call is the
    last call made, so there is no embedding call. *)
Theorem C5_flagged_query_throws_before_embedding
    (rl : RateLimitCheck) (key : option string)
    (m : option CreateModerationResponse) :
  rate_limits E [] pid = Ok rl ->
  success (result rl) = true ->
  openAIKey_of E [RateLimitCall pid] pid = Ok key ->
  fetch_moderations E [RateLimitCall pid; GetOpenAIKeyCall pid]
    (authorizationOf E key) (sanitize (truncated E params)) = Ok m ->
  isFlagged m = true ->
  handler E req =
    (Throw "Error: Flagged content",
     [RateLimitCall pid; GetOpenAIKeyCall pid;
      ModerationCall (authorizationOf E key) (sanitize (truncated E params))]) /\
  opensStream (fst (handler E req)) = false /\
  count isEmbeddingCall (snd (handler E req)) = 0%nat.
Proof.
  intros Hrl Hok Hkey Hmod Hflag.
  assert (Heq : handler E req =
    (Throw "Error: Flagged content",
     [RateLimitCall pid; GetOpenAIKeyCall pid;
      ModerationCall (authorizationOf E key) (sanitize (truncated E params))])).
  { accepted. rewrite Hrl, Hok. cbv beta iota. cbn [negb app].
    rewrite Hkey. cbv beta iota. cbn [app].
    fold (authorizationOf E key). rewrite Hmod. cbv beta iota.
    rewrite Hflag. reflexivity. }
  rewrite Heq. repeat split; reflexivity.
Qed.

End Accepted.

(** ** What holds on every path through the handler *)

(** On a path that went through [backOff], say what it added to the
    trace. *)
Ltac use_backoff :=
  match goal with
  | H : backOff _ _ _ = (_, _) |- _ =>
      let k := fresh "k" in
      let Hk := fresh "Hk" in
      let Hret := fresh "Hret" in
      let Hthrow := fresh "Hthrow" in
      destruct (backOff_embedding_run _ _ _ _ _ _ H) as (k & Hk & -> & Hret & Hthrow);
      try solve [exfalso; eapply Hret; reflexivity]
  end.

Ltac count_trace :=
  cbn [fst snd];
  rewrite ?count_app, ?delaysOf_app;
  repeat match goal with
         | |- context [attemptCalls ?o (embeddingCallOf ?E ?i ?key) ?a ?k] =>
             let H1 := fresh in let H2 := fresh in let H3 := fresh in
             let H4 := fresh in let H5 := fresh in
             destruct (count_attemptCalls E i key o a k) as (H1 & H2 & H3 & H4 & H5);
             rewrite ?H1, ?H2, ?H3, ?H4, ?H5;
             clear H1 H2 H3 H4 H5
         end;
  cbn [count filter List.length isEmbeddingCall isModerationCall
       isRetrievalCall isCompletionCall delaysOf flat_map app Nat.add].

Lemma handler_call_counts (E : Env) (req : NextRequest) :
  (count isEmbeddingCall (snd (handler E req)) <= 10)%nat /\
  (count isModerationCall (snd (handler E req)) <= 1)%nat /\
  (count isRetrievalCall (snd (handler E req)) <= 1)%nat /\
  (count isCompletionCall (snd (handler E req)) <= 1)%nat.
Proof.
  handler_paths; try use_backoff; count_trace; lia.
Qed.


Lemma handler_delays (E : Env) (req : NextRequest) :
  exists k, (k <= 10)%nat /\
    delaysOf (snd (handler E req)) = schedule embeddingBackoff 0 k /\
    count isEmbeddingCall (snd (handler E req)) = k.
Proof.
  handler_paths; try use_backoff; count_trace;
    first [ exists 0%nat; split; [lia | split; reflexivity]
          | eexists; split; [|split; [rewrite ?app_nil_r; reflexivity | lia]]; lia ].
Qed.

Lemma backOff_embedding_exhausted (E : Env) (input : string)
    (key : option string) (tr tr' : Trace)
    (out : Exit Response (option CreateEmbeddingResponse)) :
  (forall t a m i, exists e, fetch_embeddings E t a m i = Raise e) ->
  backOff (createEmbedding E input key) embeddingBackoff tr = (out, tr') ->
  exists e, out = Throw e.
Proof.
  intros Hfail H.
  destruct (backOff_from_exhausted E input key embeddingBackoff 10 0 tr
              ltac:(lia) Hfail) as [e He].
  change (backOff_from 10 0 (createEmbedding E input key) embeddingBackoff tr)
    with (backOff (createEmbedding E input key) embeddingBackoff tr) in He.
  rewrite H in He. exists e. exact He.
Qed.

Lemma handler_no_headers (E : Env) (req : NextRequest) (r : Response) :
  fst (handler E req) = Return r -> resp_headers r = [].
Proof.
  handler_paths; try use_backoff; cbn [fst]; intros H;
    try discriminate H; try (injection H as <-; reflexivity).
Qed.

Lemma handler_embedding_exhausted (E : Env) (req : NextRequest) :
  (forall t a m i, exists e, fetch_embeddings E t a m i = Raise e) ->
  opensStream (fst (handler E req)) = false /\
  count isRetrievalCall (snd (handler E req)) = 0%nat /\
  count isCompletionCall (snd (handler E req)) = 0%nat /\
  (count isEmbeddingCall (snd (handler E req)) <> 0%nat ->
   count isEmbeddingCall (snd (handler E req)) = 10%nat /\
   delaysOf (snd (handler E req)) = schedule embeddingBackoff 0 10 /\
   exists body, fst (handler E req) = Return (new_Response body 400)).
Proof.
  intros Hfail.
  handler_paths;
    try match goal with
        | H : backOff _ _ _ = (_, _) |- _ =>
            let e := fresh "e" in let He := fresh "He" in
            destruct (backOff_embedding_exhausted _ _ _ _ _ _ Hfail H) as [e He];
            try discriminate He
        end;
    try use_backoff; count_trace;
    (split; [reflexivity|]); (split; [reflexivity|]); (split; [reflexivity|]);
    intros Hne; try (exfalso; apply Hne; reflexivity).
  rewrite (Hthrow _ eq_refl). rewrite ?app_nil_r.
  split; [reflexivity|]. split; [reflexivity|]. eexists; reflexivity.
Qed.



Lemma handler_no_prompt_response (E : Env) (req : NextRequest) :
  fst (handler E req) = Return (new_Response "No prompt provided" 400) ->
  exists params, json_body req = Ok params /\ truncated E params = "".
Proof.
  handler_paths; try use_backoff; cbn [fst]; intros H; try discriminate H;
    try (cbv [new_Response new_Response_stream embeddingErrorMessage] in H;
         cbn [append] in H; discriminate H).
  eexists. split; [reflexivity|]. now apply String.eqb_eq.
Qed.

Lemma handler_ignores_rate_limit_details (E : Env) (req : NextRequest)
    (f : RateLimitCheck -> RateLimitCheck) :
  (forall rl, success (result (f rl)) = success (result rl)) ->
  handler (withRateLimit f E) req = handler E req.
Proof.
  intros Hf. handler_unfold.
  cbn [withRateLimit I_DONT_KNOW MAX_PROMPT_LENGTH STREAM_SEPARATOR
       stringToModel oneLine stripIndent OPENAI_API_KEY rate_limits
       openAIKey_of fetch_moderations fetch_embeddings
       rpc_match_file_sections fetch_completions].
  destruct (String.eqb (method req) "OPTIONS"); [reflexivity|].
  destruct (negb (String.eqb (method req) "POST")); [reflexivity|].
  destruct (json_body req) as [params|e]; [|reflexivity].
  destruct (falsy (projectIdParam_of req)); [reflexivity|].
  destruct (String.eqb (Js.substring0 (MAX_PROMPT_LENGTH E) (params_prompt params)) "");
    [reflexivity|].
  destruct (rate_limits E [] (template (projectIdParam_of req))) as [rl|e];
    [|reflexivity].
  rewrite Hf. reflexivity.
Qed.

(** ** Validation of the prompt *)

Lemma allWhiteSpace_substring0 (n : nat) (s : string) :
  allWhiteSpace s = true -> allWhiteSpace (Js.substring0 n s) = true.
Proof.
  unfold Js.substring0. revert n.
  induction s as [|ch s IH]; intros n H; destruct n as [|n]; try reflexivity.
  cbn [allWhiteSpace] in H. apply andb_true_iff in H as [Hc Hs].
  cbn [substring allWhiteSpace]. rewrite Hc. cbn [andb]. now apply IH.
Qed.

Lemma trim_allWhiteSpace (s : string) :
  allWhiteSpace s = true -> Js.trim s = "".
Proof.
  unfold Js.trim. induction s as [|ch s IH]; intros H; [reflexivity|].
  cbn [allWhiteSpace] in H. apply andb_true_iff in H as [Hc Hs].
  cbn [Js.trimStart]. rewrite Hc. now apply IH.
Qed.

Lemma substring0_nonempty (n : nat) (s : string) :
  (1 <= n)%nat -> s <> "" -> Js.substring0 n s <> "".
Proof.
  unfold Js.substring0. intros Hn Hs.
  destruct n as [|n]; [lia|]. destruct s as [|ch s]; [congruence|].
  cbn [substring]. discriminate.
Qed.

(** C10 (as amended).  For a POST whose body parses and whose project
    resolves (the checks that come before the prompt check), the answer is
    [No prompt provided] exactly when the prompt, cut to the maximum prompt
    length, is the empty string.  A prompt that is not empty and holds only
    white space passes this check (the maximum length being at least 1);
    its sanitized form is the empty string, and that is what the handler
    then sends to moderation. *)
Theorem C10_missing_prompt_iff_truncated_prompt_empty
    (E : Env) (req : NextRequest) (params : Params) (pid : string) :
  method req = "POST" ->
  json_body req = Ok params ->
  projectIdParam_of req = Some pid ->
  pid <> "" ->
  (fst (handler E req) = Return (new_Response "No prompt provided" 400)
   <-> truncated E params = "") /\
  (allWhiteSpace (params_prompt params) = true ->
   params_prompt params <> "" ->
   (1 <= MAX_PROMPT_LENGTH E)%nat ->
   truncated E params <> "" /\
   fst (handler E req) <> Return (new_Response "No prompt provided" 400) /\
   sanitize (truncated E params) = "" /\
   forall rl key,
     rate_limits E [] pid = Ok rl ->
     success (result rl) = true ->
     openAIKey_of E [RateLimitCall pid] pid = Ok key ->
     nth_error (snd (handler E req)) 2 =
       Some (ModerationCall (authorizationOf E key) "")).
Proof.
  intros Hmethod Hjson Hproject Hpid.
  assert (Hiff : fst (handler E req) = Return (new_Response "No prompt provided" 400)
                 <-> truncated E params = "").
  { split.
    - intros H. destruct (handler_no_prompt_response E req H) as (p & Hp & Ht).
      rewrite Hjson in Hp. now injection Hp as <-.
    - intros Ht. handler_unfold. rewrite Hmethod, Hjson, Hproject.
      change (String.eqb "POST" "OPTIONS") with false.
      change (negb (String.eqb "POST" "POST")) with false.
      cbv beta iota. cbn [falsy].
      rewrite (proj2 (String.eqb_neq pid "") Hpid).
      fold (truncated E params). rewrite Ht. reflexivity. }
  split; [exact Hiff|].
  intros Hws Hne Hmax.
  assert (Htr : truncated E params <> "")
    by (now apply substring0_nonempty).
  assert (Hsan : sanitize (truncated E params) = "").
  { unfold sanitize, truncated.
    now rewrite trim_allWhiteSpace by (now apply allWhiteSpace_substring0). }
  split; [exact Htr|]. split; [now rewrite Hiff|]. split; [exact Hsan|].
  intros rl key Hrl Hok Hkey.
  handler_unfold. rewrite Hmethod, Hjson, Hproject.
  change (String.eqb "POST" "OPTIONS") with false.
  change (negb (String.eqb "POST" "POST")) with false.
  cbv beta iota. cbn [falsy template].
  rewrite (proj2 (String.eqb_neq pid "") Hpid).
  fold (truncated E params).
  rewrite (proj2 (String.eqb_neq (truncated E params) "") Htr).
  cbv beta iota. cbn [app]. rewrite Hrl, Hok. cbv beta iota. cbn [negb app].
  rewrite Hkey. cbv beta iota. cbn [app]. rewrite Hsan.
  fold (authorizationOf E key).
  repeat handler_step; try use_backoff; cbn [snd app nth_error]; reflexivity.
Qed.

Lemma C10_witness :
  fst (handler happyEnv (sampleRequest "   ")) <>
    Return (new_Response "No prompt provided" 400) /\
  nth_error (snd (handler happyEnv (sampleRequest "   "))) 2 =
    Some (ModerationCall (authorizationOf happyEnv None) "").
Proof.
  destruct (C10_missing_prompt_iff_truncated_prompt_empty
              happyEnv (sampleRequest "   ") (sampleParams "   ") "project-1"
              eq_refl eq_refl eq_refl ltac:(discriminate)) as [_ H].
  destruct (H eq_refl ltac:(discriminate) ltac:(vm_compute; lia))
    as (_ & Hpass & _ & Hmod).
  split; [exact Hpass|].
  exact (Hmod allowedCheck None eq_refl eq_refl eq_refl).
Defined.

(** C10 as stated fails: for a POST whose path ends in a slash, so that no
    project resolves, an empty prompt is answered [No project found], not
    [No prompt provided]. *)
Lemma C10_counterexample :
  truncated happyEnv (sampleParams "") = "" /\
  fst (handler happyEnv
         {| method := "POST"; pathname := "/api/openai/completions/";
            searchParams := []; json_body := Ok (sampleParams "") |}) =
    Return (new_Response "No project found" 400) /\
  fst (handler happyEnv
         {| method := "POST"; pathname := "/api/openai/completions/";
            searchParams := []; json_body := Ok (sampleParams "") |}) <>
    Return (new_Response "No prompt provided" 400).
Proof.
  split; [reflexivity|]. split; [reflexivity|]. vm_compute. discriminate.
Qed.

(** ** Rate limiting *)

Lemma C4_witness :
  handler (sampleEnv (deniedCheck 1 30) notFlagged (fun _ => sampleEmbedding)
             sampleRetrieval sampleEvents) refundQuestion =
  (Return (new_Response "Too many requests" 429), [RateLimitCall "project-1"]).
Proof.
  apply (C4_rate_limited_stops_before_any_paid_call
           (sampleEnv (deniedCheck 1 30) notFlagged (fun _ => sampleEmbedding)
              sampleRetrieval sampleEvents)
           refundQuestion (sampleParams "What is the refund policy?")
           "project-1" eq_refl eq_refl eq_refl
           ltac:(discriminate) ltac:(vm_compute; discriminate)
           (deniedCheck 1 30) eq_refl eq_refl).
Defined.

(** C4 as stated fails: the 429 answer tells no retry window.  Whether the
    limiter says to come back in 2 hours 15 minutes or in 1 minute, the
    answer is the same fixed text. *)
Lemma C4_counterexample :
  handler (sampleEnv (deniedCheck 2 15) notFlagged (fun _ => sampleEmbedding)
             sampleRetrieval sampleEvents) refundQuestion =
  handler (sampleEnv (deniedCheck 0 1) notFlagged (fun _ => sampleEmbedding)
             sampleRetrieval sampleEvents) refundQuestion
  /\
  fst (handler (sampleEnv (deniedCheck 2 15) notFlagged (fun _ => sampleEmbedding)
                  sampleRetrieval sampleEvents) refundQuestion) =
  Return {| resp_status := 429; resp_headers := [];
            resp_body := Text "Too many requests" |}.
Proof. split; vm_compute; reflexivity. Qed.

(** C7 (as amended).  No response of the handler, successful or not,
    carries a header, and neither the response nor the calls depend on the
    limit and remaining values (or the retry window) that the rate limiter
    reports: of its answer, the handler reads the success flag alone. *)
Theorem C7_responses_carry_no_rate_limit_metadata
    (E : Env) (req : NextRequest) :
  (forall r, fst (handler E req) = Return r -> resp_headers r = []) /\
  (forall f : RateLimitCheck -> RateLimitCheck,
     (forall rl, success (result (f rl)) = success (result rl)) ->
     handler (withRateLimit f E) req = handler E req).
Proof.
  split.
  - intros r. apply handler_no_headers.
  - intros f. apply handler_ignores_rate_limit_details.
Qed.

Lemma C7_witness :
  exists r, fst (handler happyEnv refundQuestion) = Return r /\
            resp_status r = 200 /\ resp_headers r = [].
Proof.
  eexists. split; [vm_compute; reflexivity|]. split; [reflexivity|].
  apply (proj1 (C7_responses_carry_no_rate_limit_metadata happyEnv refundQuestion)).
  vm_compute. reflexivity.
Defined.

(** C7 as stated fails: a request that is answered with a stream, under a
    limiter reporting limit 100 and remaining 99, gets a response without
    any header. *)
Lemma C7_counterexample :
  limit (result allowedCheck) = 100 /\
  remaining (result allowedCheck) = 99 /\
  exists r, fst (handler happyEnv refundQuestion) = Return r /\
            resp_status r = 200 /\
            opensStream (Return r) = true /\
            resp_headers r = [].
Proof.
  split; [reflexivity|]. split; [reflexivity|].
  eexists. split; [vm_compute; reflexivity|]. repeat split.
Qed.

(** ** Moderation *)

Lemma C5_witness :
  handler (sampleEnv allowedCheck isFlaggedResponse (fun _ => sampleEmbedding)
             sampleRetrieval sampleEvents) refundQuestion =
  (Throw "Error: Flagged content",
   [RateLimitCall "project-1"; GetOpenAIKeyCall "project-1";
    ModerationCall "Bearer sk-test" "What is the refund policy?"]).
Proof.
  apply (C5_flagged_query_throws_before_embedding
           (sampleEnv allowedCheck isFlaggedResponse (fun _ => sampleEmbedding)
              sampleRetrieval sampleEvents)
           refundQuestion (sampleParams "What is the refund policy?")
           "project-1" eq_refl eq_refl eq_refl
           ltac:(discriminate) ltac:(vm_compute; discriminate)
           allowedCheck None isFlaggedResponse
           eq_refl eq_refl eq_refl eq_refl eq_refl).
Defined.

(** The same at a flagged query: the handler returns no response at all,
    so none with status 400; it throws. *)
Lemma C5_counterexample :
  ~ exists r,
      fst (handler (sampleEnv allowedCheck isFlaggedResponse
                      (fun _ => sampleEmbedding) sampleRetrieval sampleEvents)
             refundQuestion) = Return r /\
      resp_status r = 400.
Proof. intros (r & H & _). vm_compute in H. discriminate H. Qed.

(** ** Embedding with retry *)

(** What the retry does hold to.  On every run of the handler the
    embedding call is made at most 10 times, the delays between attempts
    are the first of 10 s, 20 s, 40 s, ... (10 s first, doubling), and
    moderation, retrieval and completion are each called at most once.
    When every attempt is rejected (the fetch itself fails, or its body is
    not JSON), a handler that got as far as embedding has made exactly 10
    attempts with all 9 delays and answers with a 400 text response; no
    stream is opened and neither retrieval nor completion is called. *)
Lemma rejected_embedding_attempts_retried_at_most_ten_times
    (E : Env) (req : NextRequest) :
  (count isEmbeddingCall (snd (handler E req)) <= 10)%nat /\
  (exists k, (k <= 10)%nat /\
     count isEmbeddingCall (snd (handler E req)) = k /\
     delaysOf (snd (handler E req)) = schedule embeddingBackoff 0 k /\
     exists rest,
       schedule embeddingBackoff 0 10 = delaysOf (snd (handler E req)) ++ rest) /\
  schedule embeddingBackoff 0 10 =
    [10000; 20000; 40000; 80000; 160000; 320000; 640000; 1280000; 2560000] /\
  (count isModerationCall (snd (handler E req)) <= 1)%nat /\
  (count isRetrievalCall (snd (handler E req)) <= 1)%nat /\
  (count isCompletionCall (snd (handler E req)) <= 1)%nat /\
  ((forall t a m i, exists e, fetch_embeddings E t a m i = Raise e) ->
   opensStream (fst (handler E req)) = false /\
   count isRetrievalCall (snd (handler E req)) = 0%nat /\
   count isCompletionCall (snd (handler E req)) = 0%nat /\
   (count isEmbeddingCall (snd (handler E req)) <> 0%nat ->
    count isEmbeddingCall (snd (handler E req)) = 10%nat /\
    delaysOf (snd (handler E req)) = schedule embeddingBackoff 0 10 /\
    exists body, fst (handler E req) = Return (new_Response body 400))).
Proof.
  destruct (handler_call_counts E req) as (He & Hm & Hr & Hc).
  destruct (handler_delays E req) as (k & Hk & Hd & Hcount).
  split; [exact He|]. split.
  - exists k. repeat split; try assumption.
    destruct (schedule_prefix embeddingBackoff 0 k 10 Hk) as [rest Hrest].
    exists rest. now rewrite Hd.
  - split; [reflexivity|]. repeat (split; [assumption|]).
    apply handler_embedding_exhausted.
Qed.

Lemma rejected_embedding_attempts_at_failing_service :
  count isEmbeddingCall (snd (handler failingEmbeddingsEnv refundQuestion)) = 10%nat /\
  delaysOf (snd (handler failingEmbeddingsEnv refundQuestion)) =
    schedule embeddingBackoff 0 10 /\
  exists body,
    fst (handler failingEmbeddingsEnv refundQuestion) =
    Return (new_Response body 400).
Proof.
  destruct (rejected_embedding_attempts_retried_at_most_ten_times
              failingEmbeddingsEnv refundQuestion)
    as (_ & _ & _ & _ & _ & _ & H).
  destruct (H (fun _ _ _ _ => ex_intro _ "TypeError: fetch failed" eq_refl))
    as (_ & _ & _ & H10).
  apply H10. vm_compute. discriminate.
Defined.

(** C6.  The retry does not cover the failure it is there for.  When the
    embedding service throttles, it answers with an error status and a
    JSON body; [createEmbedding] resolves with that body, so [backOff] sees
    a success: the handler makes one embedding call, waits for nothing,
    and answers 400 at once, without the further attempts. *)
Theorem C6_throttled_embedding_call_is_not_retried :
  count isEmbeddingCall (snd (handler throttledEmbeddingsEnv refundQuestion)) = 1%nat /\
  delaysOf (snd (handler throttledEmbeddingsEnv refundQuestion)) = [] /\
  fst (handler throttledEmbeddingsEnv refundQuestion) =
    Return (new_Response
              "Error creating embedding for prompt 'What is the refund policy?'"
              400) /\
  snd (handler throttledEmbeddingsEnv refundQuestion) =
    [RateLimitCall "project-1"; GetOpenAIKeyCall "project-1";
     ModerationCall "Bearer sk-test" "What is the refund policy?";
     EmbeddingCall "Bearer sk-test" "text-embedding-ada-002"
       "What is the refund policy?"].
Proof. repeat split; vm_compute; reflexivity. Qed.

(** ** Retrieval *)



(** ** End to end *)

(** One section of 10 tokens is retrieved and the upstream sends three
    chunks: the client gets the references frame, then the chunks in
    order, and the stream is closed. *)
Example refund_question_end_to_end :
  exists t,
    fst (handler happyEnv refundQuestion) = Return (new_Response_stream t) /\
    enqueued (controller t) =
      [ReferencesFrame
         (Js.JSON_stringify ["docs/refunds.md"] ++ "___START_RESPONSE_STREAM___");
       ContentFrame "Ref"; ContentFrame "unds"; ContentFrame " apply."] /\
    status (controller t) = Closed.
Proof. eexists. split; [vm_compute; reflexivity|]. split; reflexivity. Qed.

(** * Further properties *)

(** ** Sanitizing the prompt *)

Lemma isWhiteSpace_replaced (c : ascii) :
  Js.isWhiteSpace (if Ascii.eqb c Js.LF then " "%char else c) = Js.isWhiteSpace c.
Proof.
  destruct (Ascii.eqb c Js.LF) eqn:Hc; [|reflexivity].
  apply Ascii.eqb_eq in Hc. subst c. reflexivity.
Qed.

Lemma trimStart_replaceAll (s : string) :
  Js.trimStart (Js.replaceAll_LF_SP s) = Js.replaceAll_LF_SP (Js.trimStart s).
Proof.
  induction s as [|c s IH]; [reflexivity|].
  cbn [Js.replaceAll_LF_SP Js.trimStart]. rewrite isWhiteSpace_replaced.
  destruct (Js.isWhiteSpace c); [exact IH | reflexivity].
Qed.

Lemma replaceAll_empty (s : string) :
  Js.replaceAll_LF_SP s = "" -> s = "".
Proof. destruct s; [reflexivity | discriminate]. Qed.

Lemma trimEnd_replaceAll (s : string) :
  Js.trimEnd (Js.replaceAll_LF_SP s) = Js.replaceAll_LF_SP (Js.trimEnd s).
Proof.
  induction s as [|c s IH]; [reflexivity|].
  cbn [Js.replaceAll_LF_SP Js.trimEnd]. rewrite IH.
  destruct (Js.trimEnd s) as [|d r] eqn:Ht; cbn [Js.replaceAll_LF_SP].
  - rewrite isWhiteSpace_replaced.
    destruct (Js.isWhiteSpace c); reflexivity.
  - reflexivity.
Qed.

Lemma trimEnd_cons (c : ascii) (r : string) :
  Js.trimEnd (String c r) =
  match Js.trimEnd r with
  | EmptyString => if Js.isWhiteSpace c then EmptyString else Js.chr c
  | r' => String c r'
  end.
Proof. reflexivity. Qed.

Lemma trimEnd_idempotent (s : string) : Js.trimEnd (Js.trimEnd s) = Js.trimEnd s.
Proof.
  induction s as [|c s IH]; [reflexivity|].
  rewrite trimEnd_cons. destruct (Js.trimEnd s) as [|d r] eqn:Ht.
  - destruct (Js.isWhiteSpace c) eqn:Hc; [reflexivity|].
    unfold Js.chr. rewrite trimEnd_cons. cbn [Js.trimEnd]. now rewrite Hc.
  - rewrite trimEnd_cons. now rewrite IH.
Qed.

(** What [trimStart] leaves does not start with white space, and [trimEnd]
    keeps it so. *)
Lemma trimStart_head (s : string) :
  match Js.trimStart s with
  | EmptyString => True
  | String c _ => Js.isWhiteSpace c = false
  end.
Proof.
  induction s as [|c s IH]; [exact I|].
  cbn [Js.trimStart]. destruct (Js.isWhiteSpace c) eqn:Hc; [exact IH | exact Hc].
Qed.

Lemma trimEnd_head (s : string) :
  match s with
  | EmptyString => True
  | String c _ => Js.isWhiteSpace c = false
  end ->
  match Js.trimEnd s with
  | EmptyString => True
  | String c _ => Js.isWhiteSpace c = false
  end.
Proof.
  destruct s as [|c s]; [trivial|]. intros Hc.
  cbn [Js.trimEnd]. destruct (Js.trimEnd s); [rewrite Hc|]; exact Hc.
Qed.

Lemma trimStart_clean (s : string) :
  match s with
  | EmptyString => True
  | String c _ => Js.isWhiteSpace c = false
  end ->
  Js.trimStart s = s.
Proof.
  destruct s as [|c s]; [reflexivity|]. intros Hc.
  cbn [Js.trimStart]. now rewrite Hc.
Qed.

Lemma trim_idempotent (s : string) : Js.trim (Js.trim s) = Js.trim s.
Proof.
  unfold Js.trim.
  rewrite (trimStart_clean (Js.trimEnd (Js.trimStart s)))
    by (apply trimEnd_head, trimStart_head).
  apply trimEnd_idempotent.
Qed.

Lemma trim_replaceAll (s : string) :
  Js.trim (Js.replaceAll_LF_SP s) = Js.replaceAll_LF_SP (Js.trim s).
Proof. unfold Js.trim. now rewrite trimStart_replaceAll, trimEnd_replaceAll. Qed.

Lemma replaceAll_idempotent (s : string) :
  Js.replaceAll_LF_SP (Js.replaceAll_LF_SP s) = Js.replaceAll_LF_SP s.
Proof.
  induction s as [|c s IH]; [reflexivity|].
  cbn [Js.replaceAll_LF_SP]. rewrite IH. f_equal.
  destruct (Ascii.eqb c Js.LF) eqn:Hc; [reflexivity | now rewrite Hc].
Qed.

Lemma hasLF_replaceAll (s : string) : Js.hasLF (Js.replaceAll_LF_SP s) = false.
Proof.
  induction s as [|c s IH]; [reflexivity|].
  cbn [Js.replaceAll_LF_SP Js.hasLF]. rewrite IH, orb_false_r.
  destruct (Ascii.eqb c Js.LF) eqn:Hc; [reflexivity | exact Hc].
Qed.

Lemma sanitize_idempotent (s : string) : sanitize (sanitize s) = sanitize s.
Proof.
  unfold sanitize.
  now rewrite trim_replaceAll, trim_idempotent, replaceAll_idempotent.
Qed.

Lemma length_substring0 (n : nat) (s : string) :
  (String.length (Js.substring0 n s) <= n)%nat.
Proof.
  unfold Js.substring0. revert n.
  induction s as [|c s IH]; intros [|n]; cbn; try lia.
  specialize (IH n). lia.
Qed.

Lemma length_trimStart (s : string) :
  (String.length (Js.trimStart s) <= String.length s)%nat.
Proof.
  induction s as [|c s IH]; [cbn; lia|].
  cbn [Js.trimStart]. destruct (Js.isWhiteSpace c); cbn [String.length]; lia.
Qed.

Lemma length_trimEnd (s : string) :
  (String.length (Js.trimEnd s) <= String.length s)%nat.
Proof.
  induction s as [|c s IH]; [cbn; lia|].
  cbn [Js.trimEnd]. destruct (Js.trimEnd s) as [|d r].
  - destruct (Js.isWhiteSpace c); cbn; lia.
  - cbn [String.length] in *. lia.
Qed.

Lemma length_replaceAll (s : string) :
  String.length (Js.replaceAll_LF_SP s) = String.length s.
Proof. induction s as [|c s IH]; cbn; [reflexivity | now rewrite IH]. Qed.

Lemma length_sanitize (s : string) :
  (String.length (sanitize s) <= String.length s)%nat.
Proof.
  unfold sanitize, Js.trim. rewrite length_replaceAll.
  pose proof (length_trimEnd (Js.trimStart s)).
  pose proof (length_trimStart s). lia.
Qed.

(** X1.  The sanitized query holds no line feed, does not start with white
    space, is no longer than the prompt it came from, and sanitizing it
    again changes nothing. *)
Theorem X1_sanitize_clean_and_idempotent (prompt : string) :
  Js.hasLF (sanitize prompt) = false /\
  match sanitize prompt with
  | EmptyString => True
  | String c _ => Js.isWhiteSpace c = false
  end /\
  (String.length (sanitize prompt) <= String.length prompt)%nat /\
  sanitize (sanitize prompt) = sanitize prompt.
Proof.
  split; [apply hasLF_replaceAll|]. split; [|split].
  - unfold sanitize.
    pose proof (trimEnd_head (Js.trimStart prompt) (trimStart_head prompt)) as H.
    fold (Js.trim prompt) in H.
    destruct (Js.trim prompt) as [|c r]; [exact I|].
    cbn [Js.replaceAll_LF_SP]. now rewrite isWhiteSpace_replaced.
  - apply length_sanitize.
  - apply sanitize_idempotent.
Qed.

(** ** Methods and validation *)

(** X2.  A request whose method is not POST is answered without reading
    its body and without any call: [ok] with status 200 for OPTIONS, and
    status 405 with a text naming the method for every other method. *)
Theorem X2_other_methods_answered_without_calls (E : Env) (req : NextRequest) :
  method req <> "POST" ->
  handler E req =
    (Return (if String.eqb (method req) "OPTIONS"
             then new_Response "ok" 200
             else new_Response ("Method " ++ method req ++ " Not Allowed") 405),
     []).
Proof.
  intros Hm. handler_unfold.
  destruct (String.eqb (method req) "OPTIONS"); [reflexivity|].
  rewrite (proj2 (String.eqb_neq (method req) "POST") Hm). reflexivity.
Qed.

Lemma X2_witness :
  handler happyEnv
    {| method := "GET"; pathname := "/api/openai/completions/project-1";
       searchParams := []; json_body := Raise "SyntaxError" |} =
  (Return (new_Response "Method GET Not Allowed" 405), []).
Proof.
  apply (X2_other_methods_answered_without_calls happyEnv
           {| method := "GET"; pathname := "/api/openai/completions/project-1";
              searchParams := []; json_body := Raise "SyntaxError" |}).
  discriminate.
Defined.

(** X3.  The handler makes a call exactly when the request is a POST whose
    body parses, whose project resolves and whose truncated prompt is not
    empty; the first call is then the rate-limit check for that project. *)
Theorem X3_first_call_is_rate_limit_iff_validated (E : Env) (req : NextRequest) :
  (snd (handler E req) <> [] <->
   method req = "POST" /\
   exists params,
     json_body req = Ok params /\
     falsy (projectIdParam_of req) = false /\
     truncated E params <> "") /\
  (snd (handler E req) = [] \/
   exists rest,
     snd (handler E req) =
       RateLimitCall (template (projectIdParam_of req)) :: rest).
Proof.
  split.
  - split.
    + handler_paths; try use_backoff; cbn [snd]; intros Hne;
        try (exfalso; apply Hne; reflexivity).
      all: split;
        [ apply String.eqb_eq;
          match goal with H : negb _ = false |- _ =>
            apply negb_false_iff in H; exact H end
        | eexists; split; [reflexivity|]; split; [first [assumption | reflexivity]|];
          now apply String.eqb_neq ].
    + intros (Hm & params & Hj & Hp & Ht). handler_unfold.
      rewrite Hm, Hj, Hp.
      change (String.eqb "POST" "OPTIONS") with false.
      change (negb (String.eqb "POST" "POST")) with false.
      cbv beta iota. fold (truncated E params).
      rewrite (proj2 (String.eqb_neq _ _) Ht). cbv beta iota.
      repeat handler_step; try use_backoff; cbn [snd app];
        intros Hnil; try discriminate Hnil;
        repeat (apply app_eq_nil in Hnil as [Hnil _]); discriminate Hnil.
  - handler_paths; try use_backoff; cbn [snd app];
      first [ left; reflexivity | right; rewrite <- ?app_assoc; cbn [app]; eexists; reflexivity ].
Qed.

Lemma X3_witness : snd (handler happyEnv refundQuestion) <> [].
Proof.
  apply (proj2 (proj1 (X3_first_call_is_rate_limit_iff_validated
                         happyEnv refundQuestion))).
  split; [reflexivity|].
  exists (sampleParams "What is the refund policy?").
  split; [reflexivity|]. split; [reflexivity|]. vm_compute. discriminate.
Defined.

(** ** Resolving the project *)

Lemma lastComponent_from_no_slash (acc s : string) :
  hasSlash s = false -> Js.lastComponent_from acc s = (acc ++ s)%string.
Proof.
  revert acc. induction s as [|c s IH]; intros acc H.
  - cbn. now rewrite append_empty_r.
  - cbn [hasSlash] in H. apply orb_false_iff in H as [Hc Hs].
    cbn [Js.lastComponent_from]. rewrite Hc, IH by assumption.
    unfold Js.chr. rewrite append_assoc_str. reflexivity.
Qed.

Lemma lastComponent_from_slash (acc dir rest : string) :
  Js.lastComponent_from acc (dir ++ String "/" rest)%string =
  Js.lastComponent_from "" rest.
Proof.
  revert acc. induction dir as [|c dir IH]; intros acc.
  - reflexivity.
  - cbn [append Js.lastComponent_from].
    destruct (Ascii.eqb c "/"); apply IH.
Qed.

Lemma hasSlash_append (a b : string) :
  hasSlash (a ++ b)%string = hasSlash a || hasSlash b.
Proof.
  induction a as [|c a IH]; [reflexivity|].
  cbn [append hasSlash]. rewrite IH. now rewrite orb_assoc.
Qed.

Lemma lastComponent_from_has_no_slash (acc s : string) :
  hasSlash acc = false -> hasSlash (Js.lastComponent_from acc s) = false.
Proof.
  revert acc. induction s as [|c s IH]; intros acc H; [exact H|].
  cbn [Js.lastComponent_from]. destruct (Ascii.eqb c "/") eqn:Hc.
  - now apply IH.
  - apply IH. rewrite hasSlash_append, H. cbn. now rewrite Hc.
Qed.

(** X4.  The project is read off the path as the text after its last
    slash: for a path [dir/name] with no slash in [name], the project is
    [name], unless [name] is [completions], in which case it is the
    [project] query parameter (none when the parameter is absent).  The
    last component never holds a slash. *)
Theorem X4_project_is_last_path_component
    (req : NextRequest) (dir name : string) :
  pathname req = (dir ++ "/" ++ name)%string ->
  hasSlash name = false ->
  Js.lastComponent (pathname req) = name /\
  hasSlash (Js.lastComponent (pathname req)) = false /\
  projectIdParam_of req =
    (if String.eqb name "completions"
     then searchParams_get (searchParams req) "project"
     else Some name).
Proof.
  intros Hp Hn.
  assert (Hl : Js.lastComponent (pathname req) = name).
  { rewrite Hp. unfold Js.lastComponent.
    change (dir ++ "/" ++ name)%string with (dir ++ String "/" name)%string.
    rewrite lastComponent_from_slash.
    now rewrite lastComponent_from_no_slash. }
  split; [exact Hl|]. split; [now rewrite Hl|].
  unfold projectIdParam_of. now rewrite Hl.
Qed.

Lemma X4_witness :
  projectIdParam_of
    {| method := "POST"; pathname := "/api/openai/completions";
       searchParams := [("project", "project-7")]; json_body := Raise "none" |}
  = Some "project-7".
Proof.
  apply (X4_project_is_last_path_component
           {| method := "POST"; pathname := "/api/openai/completions";
              searchParams := [("project", "project-7")];
              json_body := Raise "none" |}
           "/api/openai" "completions" eq_refl eq_refl).
Defined.

(** X5.  When no project can be resolved (the path ends in a slash, or it
    ends in [completions] and the query has no [project], or an empty one),
    a POST with a body is answered 400 [No project found], whatever the
    prompt, empty or not, and no call is made. *)
Theorem X5_missing_project_checked_before_prompt
    (E : Env) (req : NextRequest) (params : Params) :
  method req = "POST" ->
  json_body req = Ok params ->
  falsy (projectIdParam_of req) = true ->
  handler E req = (Return (new_Response "No project found" 400), []).
Proof.
  intros Hm Hj Hp. handler_unfold. rewrite Hm, Hj, Hp. reflexivity.
Qed.

Lemma X5_witness :
  handler happyEnv
    {| method := "POST"; pathname := "/api/openai/completions/";
       searchParams := [("project", "project-7")];
       json_body := Ok (sampleParams "") |} =
  (Return (new_Response "No project found" 400), []).
Proof.
  apply (X5_missing_project_checked_before_prompt happyEnv
           {| method := "POST"; pathname := "/api/openai/completions/";
              searchParams := [("project", "project-7")];
              json_body := Ok (sampleParams "") |}
           (sampleParams "") eq_refl eq_refl eq_refl).
Defined.

(** ** The order and the arguments of the calls *)

Lemma length_sanitize_truncated (E : Env) (params : Params) :
  (String.length (sanitize (Js.substring0 (MAX_PROMPT_LENGTH E) (params_prompt params)))
   <= MAX_PROMPT_LENGTH E)%nat.
Proof.
  pose proof (length_sanitize
                (Js.substring0 (MAX_PROMPT_LENGTH E) (params_prompt params))).
  pose proof (length_substring0 (MAX_PROMPT_LENGTH E) (params_prompt params)).
  lia.
Qed.

(** X6.  Every embedding call of a run names the model
    [text-embedding-ada-002] and carries the very authorization and the
    very text that the moderation call of that run carried; that text is
    no longer than the maximum prompt length and holds no line feed. *)
Theorem X6_embedding_gets_the_moderated_text
    (E : Env) (req : NextRequest) (a m q : string) :
  In (EmbeddingCall a m q) (snd (handler E req)) ->
  m = "text-embedding-ada-002" /\
  In (ModerationCall a q) (snd (handler E req)) /\
  (String.length q <= MAX_PROMPT_LENGTH E)%nat /\
  Js.hasLF q = false.
Proof.
  handler_paths; try use_backoff; cbn [snd]; intros Hin;
    repeat (apply in_app_or in Hin as [Hin|Hin]);
    try (cbn [In] in Hin;
         repeat match goal with
                | H : _ \/ _ |- _ => destruct H
                | H : False |- _ => destruct H
                end; discriminate).
  all: apply In_attemptCalls in Hin; destruct Hin as [Hin|(ms & Hin)];
    [|discriminate Hin].
  all: unfold embeddingCallOf in Hin; injection Hin as -> -> ->.
  all: fold (sanitize (sanitize (Js.substring0 (MAX_PROMPT_LENGTH E) (params_prompt a0))));
    rewrite sanitize_idempotent.
  all: try match goal with H : orElse _ _ = _ |- _ => rewrite H end.
  all: split; [reflexivity|]; split;
    [ rewrite <- ?app_assoc; cbn [app In]; right; right; left; reflexivity
    | split; [apply length_sanitize_truncated | apply hasLF_replaceAll] ].
Qed.

Lemma X6_witness :
  In (ModerationCall "Bearer sk-test" "What is the refund policy?")
     (snd (handler happyEnv refundQuestion)).
Proof.
  apply (X6_embedding_gets_the_moderated_text happyEnv refundQuestion
           "Bearer sk-test" "text-embedding-ada-002" "What is the refund policy?").
  vm_compute. right. right. right. left. reflexivity.
Defined.

(** X7.  A stream is opened only at the end of a full run: the response
    has status 200 and the calls made are, in this order, the rate-limit
    check, the key lookup, moderation, between one and ten embedding
    attempts, retrieval for the same project, and one completion call
    that asks for streaming. *)
Theorem X7_stream_only_after_every_stage (E : Env) (req : NextRequest) :
  opensStream (fst (handler E req)) = true ->
  exists pid key auth q k args a p t,
    (1 <= k <= 10)%nat /\
    snd (handler E req) =
      RateLimitCall pid :: GetOpenAIKeyCall pid :: ModerationCall auth q ::
      attemptCalls embeddingBackoff (embeddingCallOf E q key) 0 k ++
      [RetrievalCall args; CompletionCall a p] /\
    project_id args = pid /\
    stream p = true /\
    fst (handler E req) = Return (new_Response_stream t) /\
    resp_status (new_Response_stream t) = 200.
Proof.
  handler_paths; try use_backoff; cbn [fst snd opensStream resp_body new_Response];
    intros H; try discriminate H.
  all: do 9 eexists; split; [eassumption|]; split;
    [ rewrite <- ?app_assoc; cbn [app]; reflexivity
    | split; [reflexivity|]; split;
      [ unfold getPayload; destruct (type _); reflexivity
      | split; reflexivity ] ].
Qed.

Lemma X7_witness :
  exists t, fst (handler happyEnv refundQuestion) = Return (new_Response_stream t).
Proof.
  destruct (X7_stream_only_after_every_stage happyEnv refundQuestion)
    as (pid & key & auth & q & k & args & a & p & t & _ & _ & _ & _ & H & _).
  - vm_compute. reflexivity.
  - exists t. exact H.
Defined.

Lemma backOff_first_success (E : Env) (input : string) (key : option string)
    (tr : Trace) (r : option CreateEmbeddingResponse) :
  fetch_embeddings E tr ("Bearer " ++ template (orElse key (OPENAI_API_KEY E)))
    "text-embedding-ada-002" (Js.replaceAll_LF_SP (Js.trim input)) = Ok r ->
  backOff (createEmbedding E input key) embeddingBackoff tr =
    (Next r, tr ++ [embeddingCallOf E input key]).
Proof.
  intros H. unfold backOff. cbn [Nat.max numOfAttempts embeddingBackoff backOff_from].
  unfold bind. rewrite delayBefore_run. cbn [delayOf map]. rewrite app_nil_r.
  unfold try_catch, createEmbedding, call. rewrite H. reflexivity.
Qed.

(** X8.  An answer of the embedding service that holds no vector (such as
    the JSON body of an error response) is not retried: the handler makes
    one embedding call, waits for nothing, answers 400 with a text naming
    the prompt, and calls neither retrieval nor completion. *)
Theorem X8_embedding_answer_without_vector_not_retried
    (E : Env) (req : NextRequest) :
  (forall t a m i, exists r,
      fetch_embeddings E t a m i = Ok r /\ promptEmbedding_of r = None) ->
  opensStream (fst (handler E req)) = false /\
  (count isEmbeddingCall (snd (handler E req)) <= 1)%nat /\
  delaysOf (snd (handler E req)) = [] /\
  count isRetrievalCall (snd (handler E req)) = 0%nat /\
  count isCompletionCall (snd (handler E req)) = 0%nat /\
  (count isEmbeddingCall (snd (handler E req)) <> 0%nat ->
   exists prompt,
     fst (handler E req) =
     Return (new_Response
               ("Error creating embedding for prompt '" ++ prompt ++ "'") 400)).
Proof.
  intros Hvec.
  handler_paths;
    try match goal with
        | H : backOff (createEmbedding E ?i ?key) _ ?tr = _ |- _ =>
            let r := fresh "r" in
            let Hr := fresh "Hr" in
            let Hn := fresh "Hn" in
            destruct (Hvec tr ("Bearer " ++ template (orElse key (OPENAI_API_KEY E)))%string
                        "text-embedding-ada-002"%string
                        (Js.replaceAll_LF_SP (Js.trim i)))
              as (r & Hr & Hn);
            rewrite (backOff_first_success E i key tr r Hr) in H;
            first [discriminate H | injection H as <- <-]
        end;
    try discriminate; try congruence;
    cbn [fst snd opensStream resp_body new_Response];
    rewrite ?count_app, ?delaysOf_app;
    cbn [count filter List.length isEmbeddingCall isModerationCall
         isRetrievalCall isCompletionCall delaysOf flat_map app Nat.add
         embeddingCallOf];
    (split; [reflexivity|]); (split; [lia|]); (split; [reflexivity|]);
    (split; [reflexivity|]); (split; [reflexivity|]);
    intros Hne; try (exfalso; apply Hne; reflexivity).
  eexists. reflexivity.
Qed.

Lemma X8_witness :
  exists prompt,
    fst (handler (sampleEnv allowedCheck notFlagged
                    (fun _ => Ok (Some {| embedding_data := None |}))
                    sampleRetrieval sampleEvents) refundQuestion) =
    Return (new_Response
              ("Error creating embedding for prompt '" ++ prompt ++ "'") 400).
Proof.
  destruct (X8_embedding_answer_without_vector_not_retried
              (sampleEnv allowedCheck notFlagged
                 (fun _ => Ok (Some {| embedding_data := None |}))
                 sampleRetrieval sampleEvents) refundQuestion)
    as (_ & _ & _ & _ & _ & H).
  - intros t a m i. eexists. split; reflexivity.
  - apply H. vm_compute. discriminate.
Defined.

(** X9.  When retrieval reports an error, the handler answers 400 with
    [Error loading embeddings:] followed by the error's message, whatever
    sections came with it, and makes no completion call. *)
Theorem X9_retrieval_error_stops_before_completion
    (E : Env) (req : NextRequest) (message : string) :
  (forall t args, error (rpc_match_file_sections E t args) = Some message) ->
  opensStream (fst (handler E req)) = false /\
  count isCompletionCall (snd (handler E req)) = 0%nat /\
  (count isRetrievalCall (snd (handler E req)) <> 0%nat ->
   fst (handler E req) =
   Return (new_Response ("Error loading embeddings: " ++ message) 400)).
Proof.
  intros Herr.
  handler_paths; try use_backoff;
    try match goal with
        | H : error (rpc_match_file_sections E ?t ?a) = _ |- _ =>
            rewrite (Herr t a) in H; first [discriminate H | injection H as <-]
        end;
    count_trace;
    (split; [reflexivity|]); (split; [reflexivity|]);
    intros Hne; try (exfalso; apply Hne; reflexivity); reflexivity.
Qed.

Lemma X9_witness :
  fst (handler (sampleEnv allowedCheck notFlagged (fun _ => sampleEmbedding)
                  {| error := Some "timeout"; data := Some sampleSections |}
                  sampleEvents) refundQuestion) =
  Return (new_Response "Error loading embeddings: timeout" 400).
Proof.
  destruct (X9_retrieval_error_stops_before_completion
              (sampleEnv allowedCheck notFlagged (fun _ => sampleEmbedding)
                 {| error := Some "timeout"; data := Some sampleSections |}
                 sampleEvents) refundQuestion "timeout")
    as (_ & _ & H).
  - intros t args. reflexivity.
  - apply H. vm_compute. discriminate.
Defined.

(** ** The completion request *)

(** X28.  The completion call of a run carries the payload for the model
    named in the body: streaming, one candidate, at most 500 tokens,
    temperature 0.1.  For a chat model the prompt is the content of a
    single user message and there is no [prompt] field; for any other
    model it is the [prompt] field and there are no messages. *)
Theorem X28_completion_payload_shape
    (E : Env) (req : NextRequest) (a : string) (p : Payload) :
  In (CompletionCall a p) (snd (handler E req)) ->
  exists params fullPrompt,
    json_body req = Ok params /\
    p = getPayload fullPrompt (stringToModel E (params_model params)) /\
    payload_model p = value (stringToModel E (params_model params)) /\
    stream p = true /\ n p = 1 /\ max_tokens p = 500 /\ temperature p = 1 # 10 /\
    match type (stringToModel E (params_model params)) with
    | chat_completions =>
        messages p = Some [{| role := "user"; message_content := fullPrompt |}] /\
        payload_prompt p = None
    | completions =>
        messages p = None /\ payload_prompt p = Some fullPrompt
    end.
Proof.
  handler_unfold.
  repeat match goal with
         | |- context [match ?x with _ => _ end] =>
             lazymatch x with
             | context [match _ with _ => _ end] => fail
             | type _ => fail
             | _ => destruct x eqn:?
             end; cbv beta iota
         end;
    try use_backoff; cbn [snd]; intros Hin;
    repeat (apply in_app_or in Hin as [Hin|Hin]);
    try (apply In_attemptCalls in Hin; destruct Hin as [Hin|(ms & Hin)];
         discriminate Hin);
    cbn [In] in Hin;
    repeat match goal with
           | H : _ \/ _ |- _ => destruct H
           | H : False |- _ => destruct H
           end;
    try discriminate;
    match goal with
    | H : CompletionCall _ _ = CompletionCall _ _ |- _ => injection H as <- <-
    end;
    do 2 eexists; (split; [reflexivity|]); (split; [reflexivity|]);
    unfold getPayload; destruct (type (stringToModel E _));
    cbn; repeat split.
Qed.

Lemma X28_witness :
  exists fullPrompt,
    messages (getPayload fullPrompt sampleModel) = None /\
    payload_prompt (getPayload fullPrompt sampleModel) = Some fullPrompt.
Proof.
  destruct (handler happyEnv refundQuestion) as [out tr] eqn:Hrun.
  assert (Htr : tr = snd (handler happyEnv refundQuestion)) by (now rewrite Hrun).
  vm_compute in Htr.
  match type of Htr with
  | tr = [_; _; _; _; _; CompletionCall ?a ?p] =>
      destruct (X28_completion_payload_shape happyEnv refundQuestion a p)
        as (params & fullPrompt & _ & Hp & _)
  end.
  - vm_compute. auto 10.
  - exists fullPrompt. split; reflexivity.
Defined.

(** The key of the completion call, in terms of [orElse]. *)
Lemma completion_call_key
    (E : Env) (req : NextRequest) (a : string) (p : Payload) :
  In (CompletionCall a p) (snd (handler E req)) ->
  exists key q,
    In (ModerationCall ("Bearer " ++ template (orElse key (OPENAI_API_KEY E))) q)
       (snd (handler E req)) /\
    openAIKey_of E [RateLimitCall (template (projectIdParam_of req))]
      (template (projectIdParam_of req)) = Ok key /\
    In (EmbeddingCall ("Bearer " ++ template (orElse key (OPENAI_API_KEY E)))
          "text-embedding-ada-002" q)
       (snd (handler E req)) /\
    a = ("Bearer " ++ match orElse key (OPENAI_API_KEY E) with
                      | Some k => k
                      | None => ""
                      end)%string.
Proof.
  handler_unfold.
  repeat match goal with
         | |- context [match ?x with _ => _ end] =>
             lazymatch x with
             | context [match _ with _ => _ end] => fail
             | orElse _ _ => fail
             | _ => destruct x eqn:?
             end; cbv beta iota
         end;
    try match goal with
        | |- context [match fetch_completions ?E' ?t ?a' ?p' with _ => _ end] =>
            destruct (fetch_completions E' t a' p') eqn:?; cbv beta iota
        end;
    try use_backoff; cbn [snd]; intros Hin;
    repeat (apply in_app_or in Hin as [Hin|Hin]);
    try (apply In_attemptCalls in Hin; destruct Hin as [Hin|(ms & Hin)];
         discriminate Hin);
    cbn [In] in Hin;
    repeat match goal with
           | H : _ \/ _ |- _ => destruct H
           | H : False |- _ => destruct H
           end;
    try discriminate;
    match goal with
    | H : CompletionCall _ _ = CompletionCall _ _ |- _ => injection H as <- <-
    end.
  all: do 2 eexists; split;
    [ rewrite <- ?app_assoc; cbn [app In]; right; right; left; reflexivity |].
  all: split; [eassumption|].
  all: split; [|reflexivity].
  all: rewrite <- ?app_assoc; cbn [app In]; right; right; right.
  all: apply in_or_app; left.
  all: destruct k as [|k]; [lia|]; cbn [attemptCalls delayOf map app In].
  all: left; unfold embeddingCallOf;
    fold (sanitize (sanitize (Js.substring0 (MAX_PROMPT_LENGTH E) (params_prompt a0))));
    rewrite sanitize_idempotent; reflexivity.
Qed.

(** X29.  The three paid calls of a run go out with the key that the key
    lookup of that run returned for the project, when that key is not
    empty, and otherwise with the key of the environment.  When there is
    no key at all, the completion call is sent with an empty key, while
    moderation and embedding had been sent with the text [undefined] in
    its place. *)
Theorem X29_calls_share_the_key
    (E : Env) (req : NextRequest) (a : string) (p : Payload) :
  In (CompletionCall a p) (snd (handler E req)) ->
  exists key auth q,
    openAIKey_of E [RateLimitCall (template (projectIdParam_of req))]
      (template (projectIdParam_of req)) = Ok key /\
    In (ModerationCall auth q) (snd (handler E req)) /\
    In (EmbeddingCall auth "text-embedding-ada-002" q) (snd (handler E req)) /\
    (forall k, key = Some k -> k <> "" ->
       auth = ("Bearer " ++ k)%string /\ a = auth) /\
    (key = None \/ key = Some "" ->
     (forall k, OPENAI_API_KEY E = Some k ->
        auth = ("Bearer " ++ k)%string /\ a = auth) /\
     (OPENAI_API_KEY E = None ->
        auth = "Bearer undefined" /\ a = "Bearer ")).
Proof.
  intros Hin.
  destruct (completion_call_key E req a p Hin) as (key & q & Hm & Hk & He & Ha).
  exists key, ("Bearer " ++ template (orElse key (OPENAI_API_KEY E)))%string, q.
  split; [exact Hk|]. split; [exact Hm|]. split; [exact He|]. split.
  - intros k -> Hne. rewrite Ha. unfold orElse.
    rewrite (proj2 (String.eqb_neq k "") Hne). split; reflexivity.
  - intros Hkey.
    assert (Ho : orElse key (OPENAI_API_KEY E) = OPENAI_API_KEY E)
      by (destruct Hkey as [->| ->]; reflexivity).
    rewrite Ha, Ho. split.
    + intros k ->. split; reflexivity.
    + intros ->. split; reflexivity.
Qed.

Lemma X29_witness :
  exists auth q,
    In (ModerationCall auth q) (snd (handler happyEnv refundQuestion)) /\
    auth = "Bearer sk-test".
Proof.
  destruct (handler happyEnv refundQuestion) as [out tr] eqn:Hrun.
  assert (Htr : tr = snd (handler happyEnv refundQuestion)) by (now rewrite Hrun).
  vm_compute in Htr.
  match type of Htr with
  | tr = [_; _; _; _; _; CompletionCall ?a ?p] =>
      destruct (X29_calls_share_the_key happyEnv refundQuestion a p)
        as (key & auth & q & Hk & Hmod & _ & _ & Henv)
  end.
  - vm_compute. auto 10.
  - exists auth, q. rewrite Hrun in Hmod. split; [exact Hmod|].
    assert (Hnone : key = None) by (vm_compute in Hk; congruence).
    destruct (Henv (or_introl Hnone)) as [Hsome _].
    exact (proj1 (Hsome "sk-test" eq_refl)).
Defined.

(** ** More on the budget *)

Lemma In_firstSeen (l : list string) (x : string) :
  In x (firstSeen l) <-> In x l.
Proof.
  induction l as [|p l IH]; [reflexivity|].
  cbn [firstSeen In]. split.
  - intros [->|H]; [now left|].
    apply in_remove in H as [H _]. right. now apply IH.
  - intros [->|H]; [now left|].
    destruct (string_dec p x) as [->|Hne]; [now left|].
    right. apply in_in_remove; [congruence | now apply IH].
Qed.

Lemma NoDup_remove_string (p : string) (l : list string) :
  NoDup l -> NoDup (remove string_dec p l).
Proof.
  induction 1 as [|x l Hx Hl IH]; cbn [remove]; [constructor|].
  destruct (string_dec p x); [exact IH|].
  constructor; [|exact IH].
  intros Hin. apply in_remove in Hin as [Hin _]. contradiction.
Qed.

Lemma NoDup_firstSeen (l : list string) : NoDup (firstSeen l).
Proof.
  induction l as [|p l IH]; cbn [firstSeen]; constructor.
  - apply remove_In.
  - now apply NoDup_remove_string.
Qed.

Lemma length_firstSeen (l : list string) :
  (List.length (firstSeen l) <= List.length l)%nat.
Proof.
  induction l as [|p l IH]; cbn [firstSeen List.length]; [lia|].
  pose proof (remove_length_le string_dec (firstSeen l) p). lia.
Qed.

(** X10.  The reference list never holds a path twice, holds exactly the
    paths of the sections whose text was taken into the context, and so
    has at most as many entries as there are sections. *)
Theorem X10_references_distinct_paths_of_included_sections
    (secs : list FileSection) :
  NoDup (references (assembleContext secs)) /\
  (List.length (references (assembleContext secs)) <= List.length secs)%nat /\
  exists k,
    fits 0 secs k /\
    contextText (assembleContext secs) = concatText (firstn k secs) /\
    forall p, In p (references (assembleContext secs)) <->
              exists s, In s (firstn k secs) /\ path s = p.
Proof.
  unfold assembleContext.
  destruct (budget_loop_prefix secs Budget_init) as (k & Hfit & Hctx & Hrefs).
  rewrite Hrefs. cbn [references Budget_init]. rewrite fold_pushNew_nil.
  split; [apply NoDup_firstSeen|]. split.
  - pose proof (length_firstSeen (map path (firstn k secs))) as H.
    rewrite length_map, length_firstn in H. lia.
  - exists k. split; [exact Hfit|]. split; [exact Hctx|].
    intros p. rewrite In_firstSeen, in_map_iff.
    split; intros (s & H1 & H2); exists s; auto.
Qed.

Lemma budget_loop_all_fit (secs : list FileSection) (b : Budget) :
  (forall s, In s secs -> 0 <= token_count s) ->
  numTokens b + tokenTotal secs < CONTEXT_TOKENS_CUTOFF ->
  budget_loop secs b =
    {| numTokens := numTokens b + tokenTotal secs;
       contextText := (contextText b ++ concatText secs)%string;
       references := fold_left pushNew (map path secs) (references b) |}.
Proof.
  revert b. induction secs as [|s secs IH]; intros b Hpos Hsum.
  - cbn. rewrite append_empty_r, Z.add_0_r. now destruct b.
  - cbn [tokenTotal fold_right] in Hsum. fold (tokenTotal secs) in Hsum.
    assert (Hrest : 0 <= tokenTotal secs).
    { clear - Hpos. induction secs as [|x secs IH]; cbn; [lia|].
      fold (tokenTotal secs).
      pose proof (Hpos x (or_intror (or_introl eq_refl))).
      assert (0 <= tokenTotal secs)
        by (apply IH; intros y [->|Hy]; apply Hpos; cbn; auto).
      lia. }
    cbn [budget_loop].
    destruct (Z.geb_spec (numTokens b + token_count s) CONTEXT_TOKENS_CUTOFF) as [Hge|Hlt].
    + lia.
    + rewrite IH.
      * cbn [numTokens contextText references tokenTotal fold_right map
             fold_left concatText].
        fold (tokenTotal secs). fold (concatText secs). unfold sectionText.
        f_equal; [lia | now rewrite !append_assoc_str].
      * intros x Hx. apply Hpos. now right.
      * cbn [numTokens]. lia.
Qed.

(** X11.  When no token count is negative and the counts add up to less
    than 800, every section is taken: the context is the text of all
    sections in order, the references are their distinct paths in order
    of first appearance, and the running total is the sum of the counts. *)
Theorem X11_all_sections_taken_when_total_below_cutoff
    (secs : list FileSection) :
  (forall s, In s secs -> 0 <= token_count s) ->
  tokenTotal secs < 800 ->
  contextText (assembleContext secs) = concatText secs /\
  references (assembleContext secs) = firstSeen (map path secs) /\
  numTokens (assembleContext secs) = tokenTotal secs.
Proof.
  intros Hpos Hsum. unfold assembleContext.
  rewrite budget_loop_all_fit by (cbn; assumption).
  cbn [contextText references numTokens Budget_init].
  rewrite fold_pushNew_nil. repeat split.
Qed.

Lemma X11_witness :
  references
    (assembleContext
       [mkSection "a.md" "one" 300 1; mkSection "b.md" "two" 200 1;
        mkSection "a.md" "three" 299 1]) =
  firstSeen ["a.md"; "b.md"; "a.md"].
Proof.
  apply (X11_all_sections_taken_when_total_below_cutoff
           [mkSection "a.md" "one" 300 1; mkSection "b.md" "two" 200 1;
            mkSection "a.md" "three" 299 1]).
  - intros s [<-|[<-|[<-|[]]]]; cbn; lia.
  - vm_compute. reflexivity.
Defined.

(** ** More on the stream transformer *)

Lemma contentOf_app (a b : list Chunk) :
  contentOf (a ++ b) = contentOf a ++ contentOf b.
Proof. unfold contentOf. apply flat_map_app. Qed.

Section MoreStreamFacts.

Variable separator : string.
Variable refs : list string.
Variable model : OpenAIModelIdWithType.

Local Abbreviation onParse' := (onParse separator refs model).
Local Abbreviation feed' := (feed separator refs model).
Local Abbreviation start' := (start separator refs model).
Local Abbreviation frame := (referencesFrame separator refs).

(** One event, from a state in which the header is out or can still be
    sent. *)
Lemma onParse_live (event : ParsedEvent) (t : Transformer) :
  didSendHeader t = true \/ status (controller t) = Readable ->
  (didSendHeader (onParse' event t) = true \/
   status (controller (onParse' event t)) = Readable) /\
  allText (onParse' event t) = (allText t ++ transcriptOf model event)%string /\
  (counter t = Z.of_nat (List.length (contentOf (enqueued (controller t)))) ->
   counter (onParse' event t) =
     Z.of_nat (List.length (contentOf (enqueued (controller (onParse' event t)))))).
Proof.
  intros Hlive. destruct event as [v|data json].
  - cbn. rewrite append_empty_r. auto.
  - cbn [onParse transcriptOf]. destruct (String.eqb data DONE).
    + rewrite append_empty_r. auto.
    + destruct t as [cnt txt hdr [out st]].
      cbn [didSendHeader controller status counter enqueued allText] in *.
      destruct hdr, st;
        try (destruct Hlive as [Hl|Hl]; discriminate Hl);
        onParse_cases json model;
        rewrite ?append_empty_r;
        (split; [auto|]); (split; [reflexivity|]);
        intros Hc; rewrite ?contentOf_app, ?length_app; cbn; lia.
Qed.

Lemma feed_live (events : list ParsedEvent) (t : Transformer) :
  didSendHeader t = true \/ status (controller t) = Readable ->
  allText (feed' events t) =
    (allText t ++ concatStrings (map (transcriptOf model) events))%string /\
  (counter t = Z.of_nat (List.length (contentOf (enqueued (controller t)))) ->
   counter (feed' events t) =
     Z.of_nat (List.length (contentOf (enqueued (controller (feed' events t)))))).
Proof.
  revert t. induction events as [|event events IH]; intros t Hlive.
  - cbn. rewrite append_empty_r. auto.
  - destruct (onParse_live event t Hlive) as (Hl & Ha & Hc).
    destruct (IH _ Hl) as (Ha' & Hc').
    change (feed' (event :: events) t) with (feed' events (onParse' event t)).
    split.
    + rewrite Ha', Ha. cbn [map concatStrings fold_right].
      now rewrite append_assoc_str.
    + auto.
Qed.

Lemma start_fields (events : list ParsedEvent) (t : Transformer) :
  allText (start' events t) = allText (feed' events t) /\
  counter (start' events t) = counter (feed' events t).
Proof.
  unfold start. destruct (controller_close _); split; reflexivity.
Qed.

(** What one event does to the status, and that it only ever adds to the
    output. *)
Lemma onParse_status (event : ParsedEvent) (t : Transformer) :
  (exists more, enqueued (controller (onParse' event t)) =
                enqueued (controller t) ++ more) /\
  (status (controller t) <> Readable ->
   controller (onParse' event t) = controller t) /\
  (status (controller t) = Readable ->
   status (controller (onParse' event t)) =
     (if eventFails model event then Errored else Readable) /\
   (eventFails model event = true ->
    enqueued (controller (onParse' event t)) =
      enqueued (controller t) ++ (if didSendHeader t then [] else [frame]))).
Proof.
  destruct event as [v|data json].
  - cbn. split; [exists []; now rewrite app_nil_r|]. split; [auto|].
    intros Hs. split; [assumption | discriminate].
  - cbn [onParse eventFails]. destruct (String.eqb data DONE).
    + split; [exists []; now rewrite app_nil_r|]. split; [auto|].
      intros Hs. split; [assumption | discriminate].
    + destruct t as [cnt txt hdr [out st]].
      cbn [didSendHeader controller status counter enqueued allText].
      destruct hdr, st;
        first [ onParse_cases json model
              | unfold onParse_try, bind, get, enqueue, error_stream,
                  controller_enqueue, controller_error, isReadable;
                cbn [didSendHeader controller enqueued status negb] ];
        (split; [first [ exists []; now rewrite app_nil_r
                       | rewrite <- ?app_assoc; eexists; reflexivity ]|]);
        (split; [intros Hn; first [reflexivity | now contradiction Hn]|]);
        intros Hs; try discriminate Hs;
        (split; [reflexivity|]); intros Hf; try discriminate Hf;
        rewrite ?app_nil_r; reflexivity.
Qed.

Lemma feed_frozen (events : list ParsedEvent) (t : Transformer) :
  status (controller t) <> Readable ->
  controller (feed' events t) = controller t.
Proof.
  revert t. induction events as [|event events IH]; intros t Hs; [reflexivity|].
  change (feed' (event :: events) t) with (feed' events (onParse' event t)).
  destruct (onParse_status event t) as (_ & Hfrozen & _).
  rewrite IH; rewrite (Hfrozen Hs); auto.
Qed.

Lemma feed_extends (events : list ParsedEvent) (t : Transformer) :
  exists more, enqueued (controller (feed' events t)) =
               enqueued (controller t) ++ more.
Proof.
  revert t. induction events as [|event events IH]; intros t.
  - exists []. now rewrite app_nil_r.
  - change (feed' (event :: events) t) with (feed' events (onParse' event t)).
    destruct (IH (onParse' event t)) as [m1 H1].
    destruct (onParse_status event t) as ((m2 & H2) & _).
    exists (m2 ++ m1). now rewrite H1, H2, app_assoc.
Qed.

Lemma feed_status (events : list ParsedEvent) (t : Transformer) :
  status (controller t) = Readable ->
  status (controller (feed' events t)) =
    (if existsb (eventFails model) events then Errored else Readable).
Proof.
  revert t. induction events as [|event events IH]; intros t Hs; [exact Hs|].
  change (feed' (event :: events) t) with (feed' events (onParse' event t)).
  destruct (onParse_status event t) as (_ & _ & Hr).
  destruct (Hr Hs) as [Hst _]. cbn [existsb].
  destruct (eventFails model event); cbn [orb].
  - rewrite feed_frozen; [exact Hst | rewrite Hst; discriminate].
  - now apply IH.
Qed.

End MoreStreamFacts.

(** X12.  The transcript kept for token accounting is the full prompt
    followed by the text of every chunk that was parsed, in order: chunks
    that the filter dropped and chunks that came after the stream had
    errored are in it too, and a chunk without text adds the word
    [undefined]. *)
Theorem X12_transcript_holds_every_parsed_text
    (separator : string) (refs : list string) (model : OpenAIModelIdWithType)
    (events : list ParsedEvent) (fullPrompt : string) :
  allText (start separator refs model events (Transformer_init fullPrompt)) =
    (fullPrompt ++ concatStrings (map (transcriptOf model) events))%string /\
  transcriptOf chatModel roleOnlyEvent = "undefined" /\
  transcriptOf sampleModel (textEvent NL) = NL.
Proof.
  split; [|split; reflexivity].
  destruct (start_fields separator refs model events (Transformer_init fullPrompt))
    as [-> _].
  apply feed_live. right. reflexivity.
Qed.

(** X13.  The counter that switches the filter off is the number of
    content chunks sent so far: it never counts a dropped chunk, the
    references frame, or a chunk that could not be enqueued. *)
Theorem X13_counter_counts_forwarded_chunks
    (separator : string) (refs : list string) (model : OpenAIModelIdWithType)
    (events : list ParsedEvent) (fullPrompt : string) :
  counter (start separator refs model events (Transformer_init fullPrompt)) =
  Z.of_nat (List.length
              (contentOf (outputOf separator refs model events fullPrompt))).
Proof.
  destruct (start_fields separator refs model events (Transformer_init fullPrompt))
    as [_ ->].
  unfold outputOf. rewrite start_enqueued.
  apply feed_live; [right|]; reflexivity.
Qed.

(** X14.  Once the stream is errored (or closed), no later event gets
    anything enqueued and the status does not change, whatever arrives:
    every enqueue that [onParse] then tries throws and is swallowed by
    its own [catch]. *)
Theorem X14_nothing_enqueued_once_not_readable
    (separator : string) (refs : list string) (model : OpenAIModelIdWithType)
    (pre post : list ParsedEvent) (t : Transformer) :
  status (controller (feed separator refs model pre t)) <> Readable ->
  controller (feed separator refs model (pre ++ post) t) =
    controller (feed separator refs model pre t) /\
  status (controller (feed separator refs model (pre ++ post) t)) <> Readable.
Proof.
  intros Hs. rewrite feed_app.
  rewrite (feed_frozen separator refs model post _ Hs). split; [reflexivity|exact Hs].
Qed.

Lemma X14_witness :
  controller (feed "|" [] sampleModel ([noChoiceEvent] ++ [textEvent "late"])
                (Transformer_init "p")) =
  controller (feed "|" [] sampleModel [noChoiceEvent] (Transformer_init "p")).
Proof.
  apply (X14_nothing_enqueued_once_not_readable
           "|" [] sampleModel [noChoiceEvent] [textEvent "late"]
           (Transformer_init "p")).
  vm_compute. discriminate.
Defined.

(** X15.  The stream ends closed when no event made [onParse] throw, and
    errored otherwise: an event throws when its data is not JSON or its
    chunk has no first choice (or, for a chat model, no delta).  The
    output stops with the first such event: the frame it may still have
    triggered is sent, and nothing of what follows. *)
Theorem X15_stream_closed_iff_no_event_failed
    (separator : string) (refs : list string) (model : OpenAIModelIdWithType)
    (fullPrompt : string) :
  (forall events,
     status (controller (start separator refs model events
                           (Transformer_init fullPrompt))) =
     (if existsb (eventFails model) events then Errored else Closed)) /\
  (forall pre event post,
     eventFails model event = true ->
     outputOf separator refs model (pre ++ event :: post) fullPrompt =
     outputOf separator refs model (pre ++ [event]) fullPrompt) /\
  eventFails model noChoiceEvent = true /\
  eventFails model (Event "not json" (Raise SYNTAX_ERROR)) = true.
Proof.
  split; [|split; [|split]].
  - intros events. rewrite start_status.
    rewrite (feed_status separator refs model events (Transformer_init fullPrompt) eq_refl).
    destruct (existsb (eventFails model) events); reflexivity.
  - intros pre event post Hf. unfold outputOf. rewrite !start_enqueued.
    change (pre ++ event :: post) with (pre ++ [event] ++ post).
    rewrite app_assoc, feed_app. rewrite feed_frozen; [reflexivity|].
    rewrite (feed_status separator refs model (pre ++ [event]) (Transformer_init fullPrompt) eq_refl).
    rewrite existsb_app. cbn [existsb]. rewrite Hf, orb_true_r. discriminate.
  - unfold eventFails, noChoiceEvent, getChunkText.
    destruct (type model); reflexivity.
  - reflexivity.
Qed.

Lemma X15_witness :
  outputOf "|" ["a.md"] sampleModel
    ([textEvent "Hello"] ++ noChoiceEvent :: [textEvent " world"]) "p" =
  outputOf "|" ["a.md"] sampleModel ([textEvent "Hello"] ++ [noChoiceEvent]) "p".
Proof.
  apply (proj1 (proj2 (X15_stream_closed_iff_no_event_failed
                         "|" ["a.md"] sampleModel "p"))).
  reflexivity.
Defined.

(** One completion-style text event, on a readable stream. *)
Lemma textEvent_step (separator : string) (refs : list string)
    (model : OpenAIModelIdWithType) (s : string) (t : Transformer) :
  type model = completions ->
  status (controller t) = Readable ->
  onParse separator refs model (textEvent s) t =
  {| counter := if (counter t <? 2) && Js.hasLF s then counter t else counter t + 1;
     allText := (allText t ++ s)%string;
     didSendHeader := true;
     controller :=
       {| enqueued :=
            (enqueued (controller t)
             ++ (if didSendHeader t then [] else [referencesFrame separator refs]))
            ++ (if (counter t <? 2) && Js.hasLF s then [] else [ContentFrame s]);
          status := Readable |} |}.
Proof.
  intros Hty Hs. destruct t as [cnt txt hdr [out st]].
  cbn [status controller] in Hs. subst st.
  unfold textEvent, onParse.
  assert (String.eqb (chunkJson s) DONE = false) as -> by reflexivity.
  unfold onParse_try, bind, get, enqueue, set_didSendHeader, append_allText,
    incr_counter, modify, await, ret, return_, throw, error_stream,
    controller_enqueue, controller_error, isReadable, getChunkText, firstChoice.
  rewrite Hty.
  cbn [didSendHeader controller enqueued status counter allText negb
       choices nth_error text toString matchesLF encode].
  destruct hdr;
    cbn [didSendHeader controller enqueued status counter allText negb];
    destruct ((cnt <? 2) && Js.hasLF s);
    cbn [didSendHeader controller enqueued status counter allText negb];
    rewrite ?app_nil_r; reflexivity.
Qed.

(** X16.  The filter is not limited to two chunks: as long as fewer than
    two chunks have been forwarded, every chunk that holds a line feed is
    dropped.  A completion-style stream all of whose chunks hold a line
    feed sends the references frame and no content at all, however long
    it is. *)
Theorem X16_chunks_with_newline_dropped_without_limit
    (separator : string) (refs : list string) (model : OpenAIModelIdWithType)
    (ss : list string) (fullPrompt : string) :
  type model = completions ->
  allHaveLF ss = true ->
  contentOf (outputOf separator refs model (map textEvent ss) fullPrompt) = [] /\
  counter (start separator refs model (map textEvent ss)
             (Transformer_init fullPrompt)) = 0.
Proof.
  intros Hty Hall.
  destruct (start_fields separator refs model (map textEvent ss)
              (Transformer_init fullPrompt)) as [_ ->].
  unfold outputOf. rewrite start_enqueued.
  assert (H : forall t,
             status (controller t) = Readable -> counter t = 0 ->
             contentOf (enqueued (controller t)) = [] ->
             contentOf (enqueued (controller
               (feed separator refs model (map textEvent ss) t))) = [] /\
             counter (feed separator refs model (map textEvent ss) t) = 0).
  { induction ss as [|s ss IH]; intros t Hs Hc Hout; [auto|].
    cbn [allHaveLF forallb] in Hall. apply andb_true_iff in Hall as [Hlf Hrest].
    cbn [map].
    change (feed separator refs model (textEvent s :: map textEvent ss) t)
      with (feed separator refs model (map textEvent ss)
              (onParse separator refs model (textEvent s) t)).
    rewrite (textEvent_step separator refs model s t Hty Hs).
    rewrite Hc, Hlf. cbn [Z.ltb Z.compare andb].
    apply IH; try assumption; cbn [status controller counter enqueued];
      try reflexivity.
    rewrite app_nil_r, contentOf_app, Hout.
    destruct (didSendHeader t); reflexivity. }
  apply H; reflexivity.
Qed.

Lemma X16_witness :
  contentOf (outputOf "|" ["a.md"] sampleModel
               (map textEvent [("Yes." ++ NL)%string; ("No." ++ NL)%string;
                               ("Maybe." ++ NL)%string]) "p") = [].
Proof.
  apply (X16_chunks_with_newline_dropped_without_limit
           "|" ["a.md"] sampleModel
           [("Yes." ++ NL)%string; ("No." ++ NL)%string; ("Maybe." ++ NL)%string]
           "p" eq_refl eq_refl).
Defined.

(** X17.  Once two chunks have been forwarded, the filter is off: every
    later completion-style chunk is forwarded as it is, line feeds or
    not, in order. *)
Theorem X17_after_two_chunks_everything_is_forwarded
    (separator : string) (refs : list string) (model : OpenAIModelIdWithType)
    (ss : list string) (t : Transformer) :
  type model = completions ->
  status (controller t) = Readable ->
  didSendHeader t = true ->
  2 <= counter t ->
  enqueued (controller (feed separator refs model (map textEvent ss) t)) =
    enqueued (controller t) ++ map ContentFrame ss /\
  counter (feed separator refs model (map textEvent ss) t) =
    counter t + Z.of_nat (List.length ss).
Proof.
  intros Hty. revert t.
  induction ss as [|s ss IH]; intros t Hs Hh Hc.
  - cbn. rewrite app_nil_r. split; [reflexivity | lia].
  - cbn [map].
    change (feed separator refs model (textEvent s :: map textEvent ss) t)
      with (feed separator refs model (map textEvent ss)
              (onParse separator refs model (textEvent s) t)).
    rewrite (textEvent_step separator refs model s t Hty Hs).
    assert ((counter t <? 2) = false) as -> by (apply Z.ltb_ge; lia).
    rewrite Hh. cbn [andb].
    match goal with |- context [feed _ _ _ _ ?t'] =>
      destruct (IH t') as [He Hn]; cbn [status controller didSendHeader counter];
        try reflexivity; try lia end.
    rewrite He, Hn. cbn [controller enqueued counter List.length].
    rewrite app_nil_r, <- app_assoc. split; [reflexivity | lia].
Qed.

Lemma X17_witness :
  enqueued (controller
    (feed "|" [] sampleModel (map textEvent [NL; "c"])
       (feed "|" [] sampleModel (map textEvent ["a"; "b"]) (Transformer_init "p")))) =
  enqueued (controller
    (feed "|" [] sampleModel (map textEvent ["a"; "b"]) (Transformer_init "p")))
  ++ map ContentFrame [NL; "c"].
Proof.
  apply (X17_after_two_chunks_everything_is_forwarded "|" [] sampleModel [NL; "c"]
           (feed "|" [] sampleModel (map textEvent ["a"; "b"]) (Transformer_init "p"))
           eq_refl eq_refl eq_refl).
  vm_compute. discriminate.
Defined.

(** X27.  A chunk that parses but carries no text (as the first delta of a
    chat stream, which only names the role) is not skipped: once the
    header is out, an empty content chunk is sent for it and it counts as
    one of the two chunks after which the filter is switched off. *)
Theorem X27_chunk_without_text_sent_empty_and_counted
    (separator : string) (refs : list string) (model : OpenAIModelIdWithType)
    (data : string) (j : CompletionChunk) (t : Transformer) :
  String.eqb data DONE = false ->
  getChunkText j model = Ok Undefined ->
  didSendHeader t = true ->
  status (controller t) = Readable ->
  enqueued (controller (onParse separator refs model (Event data (Ok j)) t)) =
    enqueued (controller t) ++ [ContentFrame ""] /\
  counter (onParse separator refs model (Event data (Ok j)) t) = counter t + 1.
Proof.
  intros Hd Hx Hh Hs.
  pose proof (onParse_filter separator refs model data j Undefined t Hd Hx Hh Hs) as H.
  cbn [matchesLF] in H. rewrite andb_false_r in H. exact H.
Qed.

Lemma X27_witness :
  enqueued (controller
    (onParse "|" [] chatModel roleOnlyEvent
       (feed "|" [] chatModel [roleOnlyEvent] (Transformer_init "p")))) =
  enqueued (controller (feed "|" [] chatModel [roleOnlyEvent] (Transformer_init "p")))
  ++ [ContentFrame ""].
Proof.
  apply (X27_chunk_without_text_sent_empty_and_counted "|" [] chatModel
           roleOnlyData roleOnlyChunk
           (feed "|" [] chatModel [roleOnlyEvent] (Transformer_init "p"))
           eq_refl eq_refl eq_refl eq_refl).
Defined.

(** ** The training endpoint *)

Ltac train_paths :=
  cbv [Train.handler Train.handler_body bind ret return_ throw await invoke
       try_catch];
  repeat handler_step.

(** Take a membership in a concrete trace apart. *)
Ltac split_in_trace H :=
  repeat (apply in_app_or in H as [H|H]);
  cbn [In] in H;
  repeat match goal with
         | H' : _ \/ _ |- _ => destruct H'
         | H' : False |- _ => destruct H'
         end;
  try discriminate.

(** X18.  A file whose stored checksum equals the checksum of its content
    is not processed again: for a signed-in POST that does not force
    retraining, the answer is 200 [Already processed], without rate-limit
    headers, and neither the rate limiter nor the embedding generation is
    called. *)
Theorem X18_unchanged_file_is_skipped
    (E : Train.Env) (req : Train.NextApiRequest) (user : string)
    (checksums : list (string * string)) :
  Train.method req = Some "POST" ->
  Train.session_user E [] = Ok (Some user) ->
  Train.forceRetrain (Train.body req) = false ->
  truthy (Train.projectId (Train.body req)) = true ->
  Train.safeGetObject E [Train.GetSession]
    (Train.getProjectChecksumsKey E (template (Train.projectId (Train.body req))))
    = Ok checksums ->
  Train.lookup checksums (Train.file_path (Train.file (Train.body req))) =
    Some (Train.createChecksum E (Train.file_content (Train.file (Train.body req)))) ->
  Train.handler E req =
    (Return {| Train.statusCode := 200; Train.headers := [];
               Train.json := Train.StatusData "Already processed" |},
     [Train.GetSession;
      Train.GetChecksums
        (Train.getProjectChecksumsKey E (template (Train.projectId (Train.body req))))]).
Proof.
  intros Hm Hs Hf Hp Hc Hl.
  cbv [Train.handler Train.handler_body bind ret return_ throw await invoke
       try_catch].
  rewrite Hm. change (negb (String.eqb "POST" "POST")) with false.
  cbv beta iota. rewrite Hs. cbv beta iota. cbn [isNone app].
  rewrite Hf, Hp. cbn [negb andb]. rewrite Hc. cbv beta iota. cbn [app].
  rewrite Hl. unfold Train.sameChecksum. rewrite String.eqb_refl. reflexivity.
Qed.

Lemma X18_witness :
  Train.handler (Train.sampleEnv "md5:# A" allowedCheck) (Train.sampleRequest false) =
  (Return {| Train.statusCode := 200; Train.headers := [];
             Train.json := Train.StatusData "Already processed" |},
   [Train.GetSession; Train.GetChecksums "checksums:project-1"]).
Proof.
  apply (X18_unchanged_file_is_skipped
           (Train.sampleEnv "md5:# A" allowedCheck) (Train.sampleRequest false)
           "user-1" [("docs/a.md", "md5:# A")]
           eq_refl eq_refl eq_refl eq_refl eq_refl eq_refl).
Defined.

(** X19.  A response carries the two rate-limit headers exactly when the
    rate limiter was asked: then they hold the limit and the remaining
    count of its answer, and the status is 429 when the answer refuses
    and 200 when it allows; a response sent before the check (405, 401,
    [Already processed]) has neither header. *)
Theorem X19_rate_limit_headers_after_the_check
    (E : Train.Env) (req : Train.NextApiRequest) (r : Train.ApiResponse) :
  fst (Train.handler E req) = Return r ->
  (existsb Train.isCheckRateLimits (snd (Train.handler E req)) = true ->
   exists rl t0,
     Train.checkEmbeddingsRateLimits E t0 (Train.projectId (Train.body req))
       = Ok rl /\
     Train.headers r =
       [("X-RateLimit-Limit", HNumber (limit (result rl)));
        ("X-RateLimit-Remaining", HNumber (remaining (result rl)))] /\
     Train.statusCode r = (if success (result rl) then 200 else 429)) /\
  (existsb Train.isCheckRateLimits (snd (Train.handler E req)) = false ->
   getHeader "X-RateLimit-Limit" (Train.headers r) = None /\
   getHeader "X-RateLimit-Remaining" (Train.headers r) = None).
Proof.
  train_paths; cbn [fst snd]; intros H; try discriminate H;
    injection H as <-;
    rewrite ?existsb_app; cbn [existsb Train.isCheckRateLimits orb app];
    rewrite ?orb_true_r; cbn [orb];
    (split; intros Hex; try discriminate Hex);
    try (split; reflexivity);
    do 2 eexists; (split; [eassumption|]); (split; [reflexivity|]);
    match goal with H : negb (success _) = _ |- _ =>
      apply (f_equal negb) in H; rewrite negb_involutive in H;
      rewrite H end; reflexivity.
Qed.

Lemma X19_witness :
  exists r,
    fst (Train.handler (Train.sampleEnv "md5:old" (deniedCheck 1 30))
           (Train.sampleRequest false)) = Return r /\
    Train.statusCode r = 429 /\
    Train.headers r =
      [("X-RateLimit-Limit", HNumber 100); ("X-RateLimit-Remaining", HNumber 0)].
Proof.
  eexists. split; [vm_compute; reflexivity|].
  destruct (X19_rate_limit_headers_after_the_check
              (Train.sampleEnv "md5:old" (deniedCheck 1 30))
              (Train.sampleRequest false) _ eq_refl) as [H _].
  split; reflexivity.
Defined.

(** X20.  When the rate limiter refuses, the answer is 429 and its text is
    the retry message built from the hours and minutes of the limiter's
    answer; the key is not looked up and no embeddings are generated: the
    rate-limit check is the last call made. *)
Theorem X20_rate_limited_training_names_retry_window
    (E : Train.Env) (req : Train.NextApiRequest) (h m : Z) :
  (forall t p, exists rl,
      Train.checkEmbeddingsRateLimits E t p = Ok rl /\
      success (result rl) = false /\ hours rl = h /\ minutes rl = m) ->
  count_if Train.isGenerate (snd (Train.handler E req)) = 0%nat /\
  (forall p, ~ In (Train.GetOpenAIKey p) (snd (Train.handler E req))) /\
  (forall p f k,
     ~ In (Train.GenerateFileEmbeddings p f k) (snd (Train.handler E req))) /\
  (existsb Train.isCheckRateLimits (snd (Train.handler E req)) = true ->
   (exists pre,
      snd (Train.handler E req) =
        pre ++ [Train.CheckRateLimits (Train.projectId (Train.body req))]) /\
   exists r,
     fst (Train.handler E req) = Return r /\
     Train.statusCode r = 429 /\
     Train.json r =
       Train.StatusData (Train.getEmbeddingsRateLimitResponse E h m)).
Proof.
  intros Hdeny.
  train_paths;
    try match goal with
        | H : Train.checkEmbeddingsRateLimits E ?t ?p = _ |- _ =>
            let rl := fresh "rl" in
            destruct (Hdeny t p) as (rl & Hrl & Hs & Hh & Hm);
            rewrite Hrl in H; first [discriminate H | injection H as <-]
        end;
    try match goal with
        | H : negb (success _) = false, Hs : success _ = false |- _ =>
            rewrite Hs in H; discriminate H
        end;
    cbn [fst snd]; unfold count_if;
    rewrite ?existsb_app, ?filter_app, ?length_app;
    cbn [existsb filter List.length Train.isCheckRateLimits Train.isGenerate
         orb app Nat.add];
    (split; [reflexivity|]);
    (split; [intros p0 Hin; split_in_trace Hin|]);
    (split; [intros p0 f0 k0 Hin; split_in_trace Hin|]);
    intros Hex; try discriminate Hex;
    (split; [first [ eexists [_; _]; reflexivity | eexists [_]; reflexivity ]|]);
    eexists; (split; [reflexivity|]); (split; [reflexivity|]);
    cbn [Train.json]; congruence.
Qed.

Lemma X20_witness :
  exists r,
    fst (Train.handler (Train.sampleEnv "md5:old" (deniedCheck 1 30))
           (Train.sampleRequest true)) = Return r /\
    Train.statusCode r = 429 /\
    Train.json r =
      Train.StatusData "Too many requests. Please try again in a few hours.".
Proof.
  destruct (X20_rate_limited_training_names_retry_window
              (Train.sampleEnv "md5:old" (deniedCheck 1 30))
              (Train.sampleRequest true) 1 30) as (_ & _ & _ & H).
  - intros t p. exists (deniedCheck 1 30). repeat split.
  - apply H. reflexivity.
Defined.

(** X21.  The stored checksums are read only for a request that does not
    force retraining and names a project, under the key of that project;
    a forced retraining never reads them, and goes on to the rate limiter
    even when the file has not changed. *)
Theorem X21_checksums_read_only_when_not_forced
    (E : Train.Env) (req : Train.NextApiRequest) :
  (forall key,
     In (Train.GetChecksums key) (snd (Train.handler E req)) ->
     Train.forceRetrain (Train.body req) = false /\
     truthy (Train.projectId (Train.body req)) = true /\
     key = Train.getProjectChecksumsKey E
             (template (Train.projectId (Train.body req)))) /\
  (Train.forceRetrain (Train.body req) = true ->
   forall user,
     Train.method req = Some "POST" ->
     Train.session_user E [] = Ok (Some user) ->
     exists rest,
       snd (Train.handler E req) =
       Train.GetSession ::
       Train.CheckRateLimits (Train.projectId (Train.body req)) :: rest).
Proof.
  split.
  - intros key.
    train_paths; cbn [snd]; intros Hin;
      repeat (apply in_app_or in Hin as [Hin|Hin]);
      cbn [In] in Hin;
      repeat match goal with
             | H : _ \/ _ |- _ => destruct H
             | H : False |- _ => destruct H
             end;
      try discriminate;
      match goal with H : Train.GetChecksums _ = Train.GetChecksums _ |- _ =>
        injection H as <- end;
      match goal with H : negb ?f && ?p = true |- _ =>
        apply andb_true_iff in H as [Hf Hp];
        apply negb_true_iff in Hf end;
      repeat split; assumption.
  - intros Hforce user Hm Hs.
    cbv [Train.handler Train.handler_body bind ret return_ throw await invoke
         try_catch].
    rewrite Hm. change (negb (String.eqb "POST" "POST")) with false.
    cbv beta iota. rewrite Hs. cbv beta iota. cbn [isNone app].
    rewrite Hforce. cbn [negb andb]. cbv beta iota.
    repeat handler_step; cbn [snd app]; rewrite <- ?app_assoc; cbn [app];
      eexists; reflexivity.
Qed.

Lemma X21_witness :
  exists rest,
    snd (Train.handler (Train.sampleEnv "md5:# A" allowedCheck)
           (Train.sampleRequest true)) =
    Train.GetSession :: Train.CheckRateLimits (Some "project-1") :: rest.
Proof.
  apply (proj2 (X21_checksums_read_only_when_not_forced
                  (Train.sampleEnv "md5:# A" allowedCheck)
                  (Train.sampleRequest true))
           eq_refl "user-1" eq_refl eq_refl).
Defined.

(** X22.  Embeddings are generated at most once per request, and only for
    a POST of a signed-in user that the rate limiter allowed; the call is
    for the project and the file of the request. *)
Theorem X22_embeddings_generated_only_when_allowed
    (E : Train.Env) (req : Train.NextApiRequest) :
  (count_if Train.isGenerate (snd (Train.handler E req)) <= 1)%nat /\
  forall p f k,
    In (Train.GenerateFileEmbeddings p f k) (snd (Train.handler E req)) ->
    Train.method req = Some "POST" /\
    p = Train.projectId (Train.body req) /\
    f = Train.file (Train.body req) /\
    (exists user, Train.session_user E [] = Ok (Some user)) /\
    exists rl t0,
      Train.checkEmbeddingsRateLimits E t0 p = Ok rl /\
      success (result rl) = true.
Proof.
  split.
  - train_paths; cbn [snd]; unfold count_if;
      rewrite ?filter_app, ?length_app;
      cbn [filter List.length Train.isGenerate app Nat.add]; lia.
  - intros p f k.
    train_paths; cbn [snd]; intros Hin;
      repeat (apply in_app_or in Hin as [Hin|Hin]);
      cbn [In] in Hin;
      repeat match goal with
             | H : _ \/ _ |- _ => destruct H
             | H : False |- _ => destruct H
             end;
      try discriminate;
      match goal with
      | H : Train.GenerateFileEmbeddings _ _ _ = Train.GenerateFileEmbeddings _ _ _ |- _ =>
          injection H as <- <- <-
      end;
      match goal with H : negb (String.eqb ?s "POST") = false |- _ =>
        apply negb_false_iff, String.eqb_eq in H; subst s end;
      match goal with H : isNone ?a = false |- _ =>
        destruct a; [|discriminate H] end;
      (split; [reflexivity|]); (split; [reflexivity|]); (split; [reflexivity|]);
      (split; [eexists; reflexivity|]);
      do 2 eexists; (split; [eassumption|]);
      match goal with H : negb (success _) = false |- _ =>
        now apply negb_false_iff in H end.
Qed.

Lemma X22_witness :
  Train.method (Train.sampleRequest true) = Some "POST" /\
  Some "project-1" = Train.projectId (Train.body (Train.sampleRequest true)).
Proof.
  destruct (proj2 (X22_embeddings_generated_only_when_allowed
                     (Train.sampleEnv "md5:# A" allowedCheck)
                     (Train.sampleRequest true))
              (Some "project-1") Train.sampleFile None)
    as (H1 & H2 & _).
  - vm_compute. auto 10.
  - split; assumption.
Defined.

(** ** The teams endpoint *)

Ltac teams_paths :=
  cbv [Teams.handler Teams.handler_body bind ret return_ throw await invoke
       try_catch Teams.isMethod];
  repeat handler_step.

Ltac split_in H :=
  repeat (apply in_app_or in H as [H|H]);
  cbn [In] in H;
  repeat match goal with
         | H' : _ \/ _ |- _ => destruct H'
         | H' : False |- _ => destruct H'
         end;
  try discriminate.

(** X23.  A team row is inserted only for a POST of a signed-in user, at
    most once, and the row is the client's columns with [is_personal] from
    the body, [created_by] the session's user, and as slug the one that
    [getAvailableTeamSlug] gave for the candidate slug, not the candidate
    itself. *)
Theorem X23_inserted_team_row
    (E : Teams.Env) (req : Teams.NextApiRequest) :
  (count_if Teams.isInsertTeam (snd (Teams.handler E req)) <= 1)%nat /\
  forall row,
    In (Teams.InsertTeam row) (snd (Teams.handler E req)) ->
    Teams.method req = Some "POST" /\
    Teams.session_user E [] = Ok (Some (Teams.new_created_by row)) /\
    Teams.getAvailableTeamSlug E
      [Teams.GetSession] (Teams.candidateSlug (Teams.body req))
      = Ok (Teams.new_slug row) /\
    Teams.new_is_personal row = Teams.isPersonal (Teams.body req) /\
    Teams.new_rest row = Teams.body_rest (Teams.body req).
Proof.
  split.
  - teams_paths; cbn [snd]; unfold count_if;
      rewrite ?filter_app, ?length_app;
      cbn [filter List.length Teams.isInsertTeam app Nat.add]; lia.
  - intros row.
    teams_paths; cbn [snd]; intros Hin; split_in Hin;
      match goal with
      | H : Teams.InsertTeam _ = Teams.InsertTeam _ |- _ => injection H as <-
      end;
      cbn [Teams.new_created_by Teams.new_slug Teams.new_is_personal
           Teams.new_rest];
      match goal with H : String.eqb ?s "POST" = true |- _ =>
        apply String.eqb_eq in H; subst s end;
      repeat split; try reflexivity; assumption.
Qed.

Lemma X23_witness :
  Teams.getAvailableTeamSlug (Teams.sampleEnv None) [Teams.GetSession] "acme"
  = Ok "acme-2".
Proof.
  destruct (proj2 (X23_inserted_team_row (Teams.sampleEnv None) Teams.createRequest)
              {| Teams.new_rest := [("name", "Acme")];
                 Teams.new_is_personal := false;
                 Teams.new_slug := "acme-2";
                 Teams.new_created_by := "user-1" |})
    as (_ & _ & H & _).
  - vm_compute. auto 10.
  - exact H.
Defined.

(** X24.  A membership is inserted at most once per request, and only
    after a team insert that reported no error and returned a team: its
    user is the session's user, who is also the creator in the inserted
    row, its team is the returned team's id, and its type is [admin]. *)
Theorem X24_membership_only_for_created_team
    (E : Teams.Env) (req : Teams.NextApiRequest) :
  (count_if Teams.isInsertMembership (snd (Teams.handler E req)) <= 1)%nat /\
  forall m,
    In (Teams.InsertMembership m) (snd (Teams.handler E req)) ->
    Teams.type m = "admin" /\
    Teams.session_user E [] = Ok (Some (Teams.user_id m)) /\
    exists row team,
      In (Teams.InsertTeam row) (snd (Teams.handler E req)) /\
      Teams.data
        (Teams.insert_team E
           [Teams.GetSession;
            Teams.GetAvailableTeamSlug (Teams.candidateSlug (Teams.body req))]
           row) = Some team /\
      Teams.error
        (Teams.insert_team E
           [Teams.GetSession;
            Teams.GetAvailableTeamSlug (Teams.candidateSlug (Teams.body req))]
           row) = None /\
      Teams.team_id m = Teams.id team /\
      Teams.new_created_by row = Teams.user_id m.
Proof.
  split.
  - teams_paths; cbn [snd]; unfold count_if;
      rewrite ?filter_app, ?length_app;
      cbn [filter List.length Teams.isInsertMembership app Nat.add]; lia.
  - intros m.
    teams_paths; cbn [snd]; intros Hin; split_in Hin;
      match goal with
      | H : Teams.InsertMembership _ = Teams.InsertMembership _ |- _ =>
          injection H as <-
      end;
      cbn [Teams.type Teams.user_id Teams.team_id app In];
      (split; [reflexivity|]); (split; [reflexivity|]);
      do 2 eexists;
      (split; [right; right; left; reflexivity|]);
      cbn [Teams.new_created_by];
      repeat split; assumption.
Qed.

Lemma X24_witness :
  Teams.type {| Teams.user_id := "user-1"; Teams.team_id := "team-9";
                Teams.type := "admin" |} = "admin" /\
  Teams.session_user (Teams.sampleEnv None) [] = Ok (Some "user-1").
Proof.
  destruct (proj2 (X24_membership_only_for_created_team
                     (Teams.sampleEnv None) Teams.createRequest)
              {| Teams.user_id := "user-1"; Teams.team_id := "team-9";
                 Teams.type := "admin" |})
    as (H1 & H2 & _).
  - vm_compute. auto 10.
  - split; assumption.
Defined.

(** X25.  A failed membership insert is not undone: the answer is 400 with
    the error's message, the team row has been inserted by then, and the
    failed insert is the last call the handler makes. *)
Theorem X25_team_stays_when_membership_fails
    (E : Teams.Env) (req : Teams.NextApiRequest) (message : string) :
  (forall t m, Teams.insert_membership E t m = Some message) ->
  count_if Teams.isInsertMembership (snd (Teams.handler E req)) <> 0%nat ->
  fst (Teams.handler E req) =
    Return (Teams.respond 400 (Teams.ErrorData message)) /\
  count_if Teams.isInsertTeam (snd (Teams.handler E req)) = 1%nat /\
  exists pre row m,
    snd (Teams.handler E req) =
      pre ++ [Teams.InsertTeam row; Teams.InsertMembership m].
Proof.
  intros Hfail.
  teams_paths;
    try match goal with
        | H : Teams.insert_membership E ?t ?m = _ |- _ =>
            rewrite (Hfail t m) in H; first [discriminate H | injection H as <-]
        end;
    cbn [fst snd]; unfold count_if;
    rewrite ?filter_app, ?length_app;
    cbn [filter List.length Teams.isInsertMembership Teams.isInsertTeam app
         Nat.add];
    intros Hne; try (exfalso; apply Hne; reflexivity).
  split; [reflexivity|]. split; [reflexivity|].
  eexists [_; _], _, _. reflexivity.
Qed.

Lemma X25_witness :
  fst (Teams.handler (Teams.sampleEnv (Some "duplicate key")) Teams.createRequest) =
  Return (Teams.respond 400 (Teams.ErrorData "duplicate key")).
Proof.
  apply (X25_team_stays_when_membership_fails
           (Teams.sampleEnv (Some "duplicate key")) Teams.createRequest
           "duplicate key").
  - intros t m. reflexivity.
  - vm_compute. discriminate.
Defined.

(** X26.  A GET only reads: it inserts nothing, and for a signed-in user
    whose memberships are found it answers 200 with the teams of those
    memberships, in order.  The closing answer [{ status: 'ok' }] of the
    handler is never sent, whatever the request. *)
Theorem X26_get_lists_teams_and_ok_never_sent
    (E : Teams.Env) (req : Teams.NextApiRequest) :
  (Teams.method req = Some "GET" ->
   count_if Teams.isWrite (snd (Teams.handler E req)) = 0%nat /\
   forall user rows,
     Teams.session_user E [] = Ok (Some user) ->
     Teams.select_memberships E [Teams.GetSession] user =
       {| Teams.data := Some rows; Teams.error := None |} ->
     Teams.handler E req =
       (Return (Teams.respond 200 (Teams.TeamsData (map Teams.teams rows))),
        [Teams.GetSession; Teams.SelectMemberships user])) /\
  (forall r, fst (Teams.handler E req) = Return r ->
             forall s, Teams.json r <> Teams.StatusData s).
Proof.
  split.
  - intros Hm. split.
    + cbv [Teams.handler Teams.handler_body bind ret return_ throw await invoke
           try_catch Teams.isMethod].
      rewrite Hm.
      change (String.eqb "GET" "" || negb (Js.includes Teams.allowedMethods "GET"))
        with false.
      change (String.eqb "GET" "GET") with true. cbv beta iota.
      repeat handler_step; cbn [snd]; unfold count_if;
        rewrite ?filter_app, ?length_app; reflexivity.
    + intros user rows Hs Hsel.
      cbv [Teams.handler Teams.handler_body bind ret return_ throw await invoke
           try_catch Teams.isMethod].
      rewrite Hm.
      change (String.eqb "GET" "" || negb (Js.includes Teams.allowedMethods "GET"))
        with false.
      change (String.eqb "GET" "GET") with true. cbv beta iota.
      rewrite Hs. cbv beta iota. cbn [app]. rewrite Hsel. reflexivity.
  - intros r.
    teams_paths; cbn [fst]; intros H; try discriminate H;
      injection H as <-; intros ?; try discriminate.
    all: exfalso.
    all: match goal with
         | H : _ || negb (Js.includes Teams.allowedMethods ?m) = false |- _ =>
             apply orb_false_iff in H as [_ H];
             apply negb_false_iff in H;
             unfold Js.includes, Teams.allowedMethods in H; cbn [existsb] in H;
             rewrite orb_false_r in H; apply orb_true_iff in H as [H|H];
             congruence
         end.
Qed.

Lemma X26_witness :
  Teams.handler (Teams.sampleEnv None)
    {| Teams.method := Some "GET"; Teams.body := Teams.body Teams.createRequest |} =
  (Return (Teams.respond 200 (Teams.TeamsData [Teams.sampleTeam])),
   [Teams.GetSession; Teams.SelectMemberships "user-1"]).
Proof.
  apply (proj2 (proj1 (X26_get_lists_teams_and_ok_never_sent (Teams.sampleEnv None)
                  {| Teams.method := Some "GET";
                     Teams.body := Teams.body Teams.createRequest |}) eq_refl)
           "user-1" [{| Teams.row_user_id := "user-1"; Teams.teams := Teams.sampleTeam |}]
           eq_refl eq_refl).
Defined.
